(** * go-sample-app: synthetic metric generator and request-metrics aggregator

    A shallow embedding of [collection/http_traces.go] (second half: the
    random metric collector), [collection/request_metrics.go] and of the
    start-up sequence of [main], followed by the properties stated about them.
    The request handlers of [collection/http_traces.go] (first half), the
    logging middleware and the exits of [main] come after, with theirs.

    Conventions.
    - Go's [int64] is a [Z] with the two's-complement wrap-around written out
      ([Int64.wrap]); [int] is taken to be 64 bits wide, as on the amd64 and
      arm64 targets the application is built for.
    - The telemetry SDK is external.  What the code pushes into it is kept as
      a trace of [Event]s; what the code asks of it at start-up is the
      [Meter] interface.
    - [math/rand] is external: a draw is an arbitrary integer [raw] reduced
      into the requested interval.
    - What a handler asks of the tracer, the logger, the HTTP client, the
      database and the response writer is kept as a trace of [Action]s; the
      answers it gets are those of an [Outside]. *)

From Stdlib Require Import ZArith List Lia Bool Ascii String Strings.Byte Sorted.
From Stdlib Require Import DecimalString.
Import ListNotations.
Local Open Scope Z_scope.

(** ** 64-bit signed integers *)

Module Int64.

Definition modulus : Z := 18446744073709551616.      (* 2^64 *)
Definition half_modulus : Z := 9223372036854775808.  (* 2^63 *)
Definition min_int64 : Z := - half_modulus.
Definition max_int64 : Z := half_modulus - 1.

Definition in_range (z : Z) : Prop := min_int64 <= z <= max_int64.

(** The value a Go [int64] holds after an operation whose exact result
    is [z]. *)
Definition wrap (z : Z) : Z := (z + half_modulus) mod modulus - half_modulus.

Definition add (a b : Z) : Z := wrap (a + b).
Definition sub (a b : Z) : Z := wrap (a - b).
Definition mul (a b : Z) : Z := wrap (a * b).

End Int64.

(** [int(x)] and [int64(x)] conversions. *)
Definition int (z : Z) : Z := Int64.wrap z.
Definition int64 (z : Z) : Z := Int64.wrap z.

(** ** Configuration *)

(** Modelled from the spec: the [Config] struct is declared in a file of the
    package that is not at hand.  The collectors read five numeric options
    from it (tick cadence, per-tick delta and the three upper bounds); the
    field names are the ones the collectors use.  [TimeAliveIncrementer] is
    passed to [Int64Counter.Add] after a multiplication by an untyped
    constant, so it is an [int64]; the other numeric fields are taken to be
    [int64] as well. *)
Record Config : Type := {
  TimeInterval : Z;
  TimeAliveIncrementer : Z;
  TotalHeapSizeUpperBound : Z;
  ThreadsActiveUpperBound : Z;
  CpuUsageUpperBound : Z
}.

(** The type invariant of the struct: every field holds an [int64]. *)
Definition Config_wf (cfg : Config) : Prop :=
  Int64.in_range (TimeInterval cfg) /\
  Int64.in_range (TimeAliveIncrementer cfg) /\
  Int64.in_range (TotalHeapSizeUpperBound cfg) /\
  Int64.in_range (ThreadsActiveUpperBound cfg) /\
  Int64.in_range (CpuUsageUpperBound cfg).

(** ** What the collectors push into the SDK *)

(** The seven instrument slots of the two collectors. *)
Inductive Signal : Type :=
| TimeAlive | CpuUsage | TotalHeapSize | ThreadsActive
| TotalBytesSent | TotalApiRequests | LatencyTime.

Definition Signal_eqb (a b : Signal) : bool :=
  match a, b with
  | TimeAlive, TimeAlive | CpuUsage, CpuUsage
  | TotalHeapSize, TotalHeapSize | ThreadsActive, ThreadsActive
  | TotalBytesSent, TotalBytesSent | TotalApiRequests, TotalApiRequests
  | LatencyTime, LatencyTime => true
  | _, _ => false
  end.

(** One call on an instrument: [slot.Add(ctx, v, ...)],
    [slot.Record(ctx, v, ...)] or [o.ObserveInt64(slot, v, ...)]. *)
Inductive Event : Type :=
| EvAdd (s : Signal) (v : Z)
| EvRecord (s : Signal) (v : Z)
| EvObserve (s : Signal) (v : Z).

(** The value a synchronous counter has accumulated: the sum of the deltas
    added to it. *)
Fixpoint added (s : Signal) (evs : list Event) : Z :=
  match evs with
  | [] => 0
  | EvAdd s' v :: rest =>
      (if Signal_eqb s s' then v else 0) + added s rest
  | _ :: rest => added s rest
  end.

(** ** Package-level state of the random metric collector *)

(** [var ( threadCount int64 = 0; threadsBool = true )] *)
Record GeneratorState : Type := {
  threadCount : Z;
  threadsBool : bool
}.

Definition initial_state : GeneratorState :=
  {| threadCount := 0; threadsBool := true |}.

(** ** Tick-driven updates *)

(** [updateTimeAlive]: one [Add] of [cfg.TimeAliveIncrementer*1000] on the
    time-alive counter. *)
Definition updateTimeAlive (cfg : Config) : list Event :=
  [EvAdd TimeAlive (Int64.mul (TimeAliveIncrementer cfg) 1000)].

(** [updateThreadsActive]: the new package-level state and the calls made on
    the threads-active instrument. *)
Definition updateThreadsActive (cfg : Config) (g : GeneratorState)
  : GeneratorState * list Event :=
  if threadsBool g then
    if threadCount g <? int64 (ThreadsActiveUpperBound cfg) then
      ({| threadCount := Int64.add (threadCount g) 1; threadsBool := true |},
       [EvAdd ThreadsActive 1])
    else
      ({| threadCount := Int64.sub (threadCount g) 1; threadsBool := false |},
       [])
  else
    if threadCount g >? 0 then
      ({| threadCount := Int64.sub (threadCount g) 1; threadsBool := false |},
       [EvAdd ThreadsActive (-1)])
    else
      ({| threadCount := Int64.add (threadCount g) 1; threadsBool := true |},
       []).

(** [n] successive calls of [updateThreadsActive]. *)
Fixpoint ticks (cfg : Config) (n : nat) (g : GeneratorState)
  : GeneratorState * list Event :=
  match n with
  | O => (g, [])
  | S k =>
      let (g1, e1) := updateThreadsActive cfg g in
      let (g2, e2) := ticks cfg k g1 in
      (g2, e1 ++ e2)
  end.

(** The body of the background loop of [RegisterMetricsClient], run [n]
    times: [updateTimeAlive] then [updateThreadsActive], then the sleep. *)
Fixpoint tick_loop (cfg : Config) (n : nat) (g : GeneratorState)
  : GeneratorState * list Event :=
  match n with
  | O => (g, [])
  | S k =>
      let e0 := updateTimeAlive cfg in
      let (g1, e1) := updateThreadsActive cfg g in
      let (g2, e2) := tick_loop cfg k g1 in
      (g2, e0 ++ e1 ++ e2)
  end.

(** A configuration that only sets the threads-active bound. *)
Definition cfg_threads (ub : Z) : Config :=
  {| TimeInterval := 1; TimeAliveIncrementer := 1;
     TotalHeapSizeUpperBound := 1; ThreadsActiveUpperBound := ub;
     CpuUsageUpperBound := 1 |}.

(** ** Outcomes and the random source *)

(** A call either returns or panics. *)
Inductive Result (E A : Type) : Type :=
| Value (a : A)
| Panic (e : E).
Arguments Value {E A} a.
Arguments Panic {E A} e.

Definition panics {E A : Type} (r : Result E A) : bool :=
  match r with Value _ => false | Panic _ => true end.

(** [rand.Intn(n)]: panics when [n <= 0], otherwise a number of [[0, n)].
    The pseudo-random generator is external; [raw] stands for what it
    yields at this call, and every number of the interval is the image of
    some [raw]. *)
Definition Intn (raw n : Z) : Result string Z :=
  if n <=? 0 then Panic "invalid argument to Intn"%string
  else Value (raw mod n).

(** What an observer callback finds when the SDK runs a collection: the
    next draw of the random source and the current request counter. *)
Record Collection : Type := {
  draw : Z;
  requests : Z
}.

Definition Callback : Type := Collection -> Result string (list Event).

(** ** Pull-based samplers *)

(** The closure [updateCpuUsage] hands to [RegisterCallback]; [min] and
    [max] are captured when the closure is built. *)
Definition cpuUsageCallback (cfg : Config) : Callback :=
  let min := 0 in
  let max := int (CpuUsageUpperBound cfg) in
  fun c =>
    match Intn (draw c) (Int64.sub max min) with
    | Panic e => Panic e
    | Value r => Value [EvObserve CpuUsage (int64 (Int64.add r min))]
    end.

(** The closure [updateTotalHeapSize] hands to [RegisterCallback]. *)
Definition totalHeapSizeCallback (cfg : Config) : Callback :=
  let min := 0 in
  let max := int (TotalHeapSizeUpperBound cfg) in
  fun c =>
    match Intn (draw c) (Int64.sub max min) with
    | Panic e => Panic e
    | Value r => Value [EvObserve TotalHeapSize (int64 (Int64.add r min))]
    end.

(** ** Request-based metrics: the synchronous updates *)

(** [UpdateTotalBytesSent]: one [Add] of a draw of [[0, 1024)]. *)
Definition UpdateTotalBytesSent (raw : Z) : Result string (list Event) :=
  let min := 0 in
  let max := 1024 in
  match Intn raw (Int64.sub max min) with
  | Panic e => Panic e
  | Value r => Value [EvAdd TotalBytesSent (int64 (Int64.add r min))]
  end.

(** [UpdateLatencyTime]: one [Record] of a draw of [[0, 512)]. *)
Definition UpdateLatencyTime (raw : Z) : Result string (list Event) :=
  let min := 0 in
  let max := 512 in
  match Intn raw (Int64.sub max min) with
  | Panic e => Panic e
  | Value r => Value [EvRecord LatencyTime (int64 (Int64.add r min))]
  end.

(** ** The metric SDK as the collectors see it *)

(** [metric.Meter]: the six instrument constructors the collectors call and
    [RegisterCallback].  [M] is the state of the SDK; a constructor returns
    the instrument ([None] is the nil interface value) and the error, if
    any.  Instruments are named after their slot: the name constants and
    [testingId] are declared elsewhere in the package. *)
Class Meter (M Instrument Err : Type) : Type := {
  Int64Counter :
    Signal -> M -> (option Instrument * option Err) * M;
  Int64ObservableGauge :
    Signal -> M -> (option Instrument * option Err) * M;
  Int64ObservableUpDownCounter :
    Signal -> M -> (option Instrument * option Err) * M;
  Int64UpDownCounter :
    Signal -> M -> (option Instrument * option Err) * M;
  Int64ObservableCounter :
    Signal -> M -> (option Instrument * option Err) * M;
  Int64Histogram :
    Signal -> M -> (option Instrument * option Err) * M;
  RegisterCallback :
    Callback -> option Instrument -> M -> option Err * M
}.

(** The state start-up code runs in: the SDK and the lines written with
    [slog.Error]. *)
Record StartupState (M Err : Type) : Type := {
  sdk : M;
  logged : list (string * Err)
}.
Arguments sdk {M Err} s.
Arguments logged {M Err} s.

(** Start-up code: state passing, and a panic ends the run. *)
Definition Startup (M Err A : Type) : Type :=
  StartupState M Err -> Result Err A * StartupState M Err.

Definition ret {M Err A : Type} (a : A) : Startup M Err A :=
  fun s => (Value a, s).

Definition bind {M Err A B : Type}
  (c : Startup M Err A) (k : A -> Startup M Err B) : Startup M Err B :=
  fun s =>
    match c s with
    | (Value a, s1) => k a s1
    | (Panic e, s1) => (Panic e, s1)
    end.

Notation "x <- c1 ;; c2" := (bind c1 (fun x => c2))
  (at level 61, c1 at next level, right associativity).
Notation "' pat <- c1 ;; c2" :=
  (bind c1 (fun x => match x with pat => c2 end))
  (at level 61, pat pattern, c1 at next level, right associativity).

(** A call into the SDK. *)
Definition call {M Err A : Type} (op : M -> A * M) : Startup M Err A :=
  fun s =>
    let (a, m1) := op (sdk s) in
    (Value a, {| sdk := m1; logged := logged s |}).

(** [slog.Error(msg, err)] *)
Definition slog_Error {M Err : Type} (msg : string) (err : Err)
  : Startup M Err unit :=
  fun s => (Value tt, {| sdk := sdk s; logged := logged s ++ [(msg, err)] |}).

(** [panic(err)] *)
Definition panic {M Err A : Type} (err : Err) : Startup M Err A :=
  fun s => (Panic err, s).

(** [if err != nil { body }] *)
Definition if_err {M Err : Type} (err : option Err)
  (body : Err -> Startup M Err unit) : Startup M Err unit :=
  match err with
  | Some e => body e
  | None => ret tt
  end.

(** ** The two collectors *)

(** [randomMetricCollector]; its [meter] field is the SDK handle, which the
    embedding threads as the state of [Startup]. *)
Record randomMetricCollector (Instrument : Type) : Type := {
  timeAlive : option Instrument;
  cpuUsage : option Instrument;
  totalHeapSize : option Instrument;
  threadsActive : option Instrument
}.
Arguments timeAlive {Instrument} r.
Arguments cpuUsage {Instrument} r.
Arguments totalHeapSize {Instrument} r.
Arguments threadsActive {Instrument} r.

(** [requestBasedMetricCollector], without its [meter] field as above. *)
Record requestBasedMetricCollector (Instrument : Type) : Type := {
  totalBytesSent : option Instrument;
  totalApiRequests : option Instrument;
  latencyTime : option Instrument;
  config : Config;
  counter : Z
}.
Arguments totalBytesSent {Instrument} r.
Arguments totalApiRequests {Instrument} r.
Arguments latencyTime {Instrument} r.
Arguments config {Instrument} r.
Arguments counter {Instrument} r.

Section Collectors.

Context {M Instrument Err : Type} {meter : Meter M Instrument Err}.

Local Abbreviation rmcT := (randomMetricCollector Instrument).
Local Abbreviation rqmcT := (requestBasedMetricCollector Instrument).
Local Abbreviation St := (Startup M Err).

(** *** Random metric collector: registration *)

Definition registerTimeAlive (rmc : rmcT) : St rmcT :=
  ' (timeAliveMetric, err) <- call (Int64Counter TimeAlive) ;;
  _ <- if_err err (slog_Error "Error registering TimeAlive metric") ;;
  ret {| timeAlive := timeAliveMetric; cpuUsage := cpuUsage rmc;
         totalHeapSize := totalHeapSize rmc;
         threadsActive := threadsActive rmc |}.

Definition registerCpuUsage (rmc : rmcT) : St rmcT :=
  ' (cpuUsageMetric, err) <- call (Int64ObservableGauge CpuUsage) ;;
  _ <- if_err err (slog_Error "Error registering CpuUsage metric") ;;
  ret {| timeAlive := timeAlive rmc; cpuUsage := cpuUsageMetric;
         totalHeapSize := totalHeapSize rmc;
         threadsActive := threadsActive rmc |}.

Definition registerHeapSize (rmc : rmcT) : St rmcT :=
  ' (totalHeapSizeMetric, err) <-
      call (Int64ObservableUpDownCounter TotalHeapSize) ;;
  _ <- if_err err (slog_Error "Error registering HeapSize metric") ;;
  ret {| timeAlive := timeAlive rmc; cpuUsage := cpuUsage rmc;
         totalHeapSize := totalHeapSizeMetric;
         threadsActive := threadsActive rmc |}.

Definition registerThreadsActive (rmc : rmcT) : St rmcT :=
  ' (threadsActiveMetric, err) <- call (Int64UpDownCounter ThreadsActive) ;;
  _ <- if_err err (slog_Error "Error registering ThreadsActive metric") ;;
  ret {| timeAlive := timeAlive rmc; cpuUsage := cpuUsage rmc;
         totalHeapSize := totalHeapSize rmc;
         threadsActive := threadsActiveMetric |}.

Definition NewRandomMetricCollector : St rmcT :=
  let rmc := {| timeAlive := None; cpuUsage := None;
                totalHeapSize := None; threadsActive := None |} in
  rmc <- registerHeapSize rmc ;;
  rmc <- registerThreadsActive rmc ;;
  rmc <- registerTimeAlive rmc ;;
  rmc <- registerCpuUsage rmc ;;
  ret rmc.

(** *** Random metric collector: callbacks *)

Definition updateCpuUsage (rmc : rmcT) (cfg : Config) : St unit :=
  err <- call (RegisterCallback (cpuUsageCallback cfg) (cpuUsage rmc)) ;;
  if_err err panic.

Definition updateTotalHeapSize (rmc : rmcT) (cfg : Config) : St unit :=
  err <- call (RegisterCallback (totalHeapSizeCallback cfg)
                 (totalHeapSize rmc)) ;;
  if_err err panic.

(** [RegisterMetricsClient]: the goroutine it starts runs [tick_loop] for
    ever; the caller goes on with the two callback registrations. *)
Definition RegisterMetricsClient (rmc : rmcT) (cfg : Config) : St unit :=
  _ <- updateCpuUsage rmc cfg ;;
  updateTotalHeapSize rmc cfg.

(** *** Request-based metric collector *)

(** [AddApiRequest]: [atomic.AddInt64(&rqmc.counter, 1)] *)
Definition AddApiRequest (rqmc : rqmcT) : rqmcT :=
  {| totalBytesSent := totalBytesSent rqmc;
     totalApiRequests := totalApiRequests rqmc;
     latencyTime := latencyTime rqmc;
     config := config rqmc;
     counter := Int64.add (counter rqmc) 1 |}.

(** [GetApiRequest]: [int(atomic.LoadInt64(&rqmc.counter))] *)
Definition GetApiRequest (rqmc : rqmcT) : Z :=
  int (counter rqmc).

Definition registerTotalBytesSent (rqmc : rqmcT) : St rqmcT :=
  ' (totalBytesSentMetric, err) <- call (Int64Counter TotalBytesSent) ;;
  _ <- if_err err (slog_Error "Error registering TotalBytesSent metric") ;;
  ret {| totalBytesSent := totalBytesSentMetric;
         totalApiRequests := totalApiRequests rqmc;
         latencyTime := latencyTime rqmc;
         config := config rqmc; counter := counter rqmc |}.

Definition registerTotalRequests (rqmc : rqmcT) : St rqmcT :=
  ' (totalApiRequestsMetric, err) <-
      call (Int64ObservableCounter TotalApiRequests) ;;
  _ <- if_err err (slog_Error "Error registering TotalApiRequests metric") ;;
  ret {| totalBytesSent := totalBytesSent rqmc;
         totalApiRequests := totalApiRequestsMetric;
         latencyTime := latencyTime rqmc;
         config := config rqmc; counter := counter rqmc |}.

Definition registerLatencyTime (rqmc : rqmcT) : St rqmcT :=
  ' (latencyTimeMetric, err) <- call (Int64Histogram LatencyTime) ;;
  _ <- if_err err (slog_Error "Error registering LatencyTime metric") ;;
  ret {| totalBytesSent := totalBytesSent rqmc;
         totalApiRequests := totalApiRequests rqmc;
         latencyTime := latencyTimeMetric;
         config := config rqmc; counter := counter rqmc |}.

Definition NewRequestBasedMetricCollector (cfg : Config) : St rqmcT :=
  let rqmc := {| totalBytesSent := None; totalApiRequests := None;
                 latencyTime := None; config := cfg; counter := 0 |} in
  rqmc <- registerTotalBytesSent rqmc ;;
  rqmc <- registerTotalRequests rqmc ;;
  rqmc <- registerLatencyTime rqmc ;;
  ret rqmc.

(** The closure [StartTotalRequestCallback] registers: it reads the counter
    through [GetApiRequest] when the SDK collects. *)
Definition totalApiRequestsCallback : Callback :=
  fun c => Value [EvObserve TotalApiRequests (int64 (int (requests c)))].

Definition StartTotalRequestCallback (rqmc : rqmcT) : St unit :=
  err <- call (RegisterCallback totalApiRequestsCallback
                 (totalApiRequests rqmc)) ;;
  if_err err panic.

(** *** The metric part of [main] *)

Definition main_metrics (cfg : Config) : St (rmcT * rqmcT) :=
  rmc <- NewRandomMetricCollector ;;
  _ <- RegisterMetricsClient rmc cfg ;;
  rqmc <- NewRequestBasedMetricCollector cfg ;;
  _ <- StartTotalRequestCallback rqmc ;;
  ret (rmc, rqmc).

(** *** Sequences of aggregator operations *)

Inductive Op : Type :=
| OpAddApiRequest
| OpGetApiRequest
| OpUpdateTotalBytesSent (raw : Z)
| OpUpdateLatencyTime (raw : Z).

(** A collector in use: its state, what [GetApiRequest] returned so far
    (oldest first) and what was pushed into the SDK. *)
Record Usage : Type := {
  collector : rqmcT;
  returned : list Z;
  pushed : list Event
}.

Definition apply_op (op : Op) (u : Usage) : Result string Usage :=
  match op with
  | OpAddApiRequest =>
      Value {| collector := AddApiRequest (collector u);
               returned := returned u; pushed := pushed u |}
  | OpGetApiRequest =>
      Value {| collector := collector u;
               returned := returned u ++ [GetApiRequest (collector u)];
               pushed := pushed u |}
  | OpUpdateTotalBytesSent raw =>
      match UpdateTotalBytesSent raw with
      | Panic e => Panic e
      | Value evs =>
          Value {| collector := collector u; returned := returned u;
                   pushed := pushed u ++ evs |}
      end
  | OpUpdateLatencyTime raw =>
      match UpdateLatencyTime raw with
      | Panic e => Panic e
      | Value evs =>
          Value {| collector := collector u; returned := returned u;
                   pushed := pushed u ++ evs |}
      end
  end.

Fixpoint apply_ops (ops : list Op) (u : Usage) : Result string Usage :=
  match ops with
  | [] => Value u
  | op :: rest =>
      match apply_op op u with
      | Panic e => Panic e
      | Value u1 => apply_ops rest u1
      end
  end.

Definition start_usage (rqmc : rqmcT) : Usage :=
  {| collector := rqmc; returned := []; pushed := [] |}.

Definition is_add (op : Op) : bool :=
  match op with OpAddApiRequest => true | _ => false end.

End Collectors.

Arguments Usage : clear implicits.

(** ** A small SDK to run the start-up code on *)

(** A backend that refuses an instrument name already taken (its state is
    the list of names taken) and a callback on a nil instrument. *)
Definition take_name (s : Signal) (taken : list Signal)
  : (option Signal * option string) * list Signal :=
  if existsb (Signal_eqb s) taken
  then ((None, Some "duplicate instrument name"%string), taken)
  else ((Some s, None), s :: taken).

Definition watch (cb : Callback) (inst : option Signal) (taken : list Signal)
  : option string * list Signal :=
  match inst with
  | None => (Some "nil instrument"%string, taken)
  | Some _ => (None, taken)
  end.

#[export] Instance name_meter : Meter (list Signal) Signal string := {|
  Int64Counter := take_name;
  Int64ObservableGauge := take_name;
  Int64ObservableUpDownCounter := take_name;
  Int64UpDownCounter := take_name;
  Int64ObservableCounter := take_name;
  Int64Histogram := take_name;
  RegisterCallback := watch
|}.

Definition boot (taken : list Signal) : StartupState (list Signal) string :=
  {| sdk := taken; logged := [] |}.

(** ** Predicates on the oscillator *)

(** The count is between 0 and the bound. *)
Definition count_bounded (cfg : Config) (g : GeneratorState) : Prop :=
  0 <= threadCount g <= ThreadsActiveUpperBound cfg.

(** What the instrument has accumulated follows the count: equal to it
    while ascending, one above it while descending. *)
Definition tracks (cfg : Config) (g : GeneratorState) (total : Z) : Prop :=
  if threadsBool g
  then total = threadCount g /\ 0 <= threadCount g <= ThreadsActiveUpperBound cfg
  else total = threadCount g + 1
       /\ -1 <= threadCount g <= ThreadsActiveUpperBound cfg - 1.

(** ** Predicates on the use of the request collector *)

(** The number of [AddApiRequest] among the operations. *)
Definition adds (ops : list Op) : Z :=
  Z.of_nat (List.length (filter is_add ops)).

(** The values read so far are in non-decreasing order and none exceeds
    the counter. *)
Definition reads_ordered {Instrument : Type} (u : Usage Instrument) : Prop :=
  StronglySorted Z.le (returned u)
  /\ Forall (fun v => v <= counter (collector u)) (returned u).

(** The request collector [NewRequestBasedMetricCollector] builds on
    [name_meter] when no name is taken. *)
Definition fresh_rqmc : requestBasedMetricCollector Signal :=
  {| totalBytesSent := Some TotalBytesSent;
     totalApiRequests := Some TotalApiRequests;
     latencyTime := Some LatencyTime;
     config := cfg_threads 10;
     counter := 0 |}.

(** ** Predicates on start-up code *)

(** A registration function that returns in every case: it stores the
    instrument the constructor returned and, when the constructor returned
    an error, writes one line with it to the log. *)
Definition logs_and_returns {M Instrument Err A : Type}
  (create : M -> (option Instrument * option Err) * M) (msg : string)
  (register : Startup M Err A) (slot : A -> option Instrument) : Prop :=
  forall s,
    let '((inst, err), m1) := create (sdk s) in
    exists a,
      register s
      = (Value a,
         {| sdk := m1;
            logged := logged s ++ match err with
                                  | Some e => [(msg, e)]
                                  | None => []
                                  end |})
      /\ slot a = inst.

(** A callback registration that panics exactly when [RegisterCallback]
    returns an error. *)
Definition panics_on_error {M Instrument Err : Type}
  {meter : Meter M Instrument Err}
  (cb : Callback) (inst : option Instrument)
  (start : Startup M Err unit) : Prop :=
  forall s,
    panics (fst (start s)) = true
    <-> fst (RegisterCallback cb inst (sdk s)) <> None.

(** ** Trace identifiers *)

(** [trace.TraceID] is a [[16]byte]; its [String] method is the lower-case
    hexadecimal encoding of the bytes ([hex.EncodeToString]). *)
Definition TraceID : Type := list Byte.byte.

Definition hextable : list Ascii.ascii :=
  list_ascii_of_string "0123456789abcdef".

Definition hex_of_byte (b : Byte.byte) : string :=
  let n := N.to_nat (Byte.to_N b) in
  String (nth (n / 16) hextable "0"%char)
    (String (nth (n mod 16) hextable "0"%char) EmptyString).

Fixpoint EncodeToString (bs : list Byte.byte) : string :=
  match bs with
  | [] => EmptyString
  | b :: rest => (hex_of_byte b ++ EncodeToString rest)%string
  end.

(** [getXrayTraceID], on the trace identifier of the span: the slices
    [xrayTraceID[0:8]] and [xrayTraceID[8:]] panic on a string shorter
    than 8. *)
Definition getXrayTraceID (tid : TraceID) : Result string string :=
  let xrayTraceID := EncodeToString tid in
  if (String.length xrayTraceID <? 8)%nat
  then Panic "slice bounds out of range"%string
  else Value ("1-" ++ substring 0 8 xrayTraceID ++ "-"
              ++ substring 8 (String.length xrayTraceID - 8) xrayTraceID)%string.

(** ** Request handlers: what they do to the outside *)

(** The body a handler writes: [json.Marshal] of a [response], kept as the
    struct. *)
Inductive Payload : Type :=
| JsonResponse (traceId : string).

(** The calls a handler makes on the tracer, the logger, the HTTP client,
    the S3 client, the database and the response writer, in the order it
    makes them.  [HttpGet] is [http.NewRequestWithContext] followed by
    [client.Do]. *)
Inductive Action : Type :=
| SpanStart (name : string)
| SpanEnd (name : string)
| LogInfo (msg : string)
| HttpGet (url : string)
| BodyClose (url : string)
| ListBuckets
| QueryRow (sql : string)
| HeaderSet (key value : string)
| WriteBody (p : Payload).

(** How a request made with [client.Do] ends: [Do] panics (on the nil
    request left by a URL that does not parse), or returns a response,
    nil or not, and an error, nil or not. *)
Inductive DoOutcome (Response Err : Type) : Type :=
| DoPanics (e : Err)
| DoReturns (res : option Response) (err : option Err).
Arguments DoPanics {Response Err} e.
Arguments DoReturns {Response Err} res err.

(** The outside of a handler: the HTTP client, the database (one
    [QueryRowContext] and the [Scan] of its row), the random source, and
    the errors of the Go runtime. *)
Class Outside (Env Response Err : Type) : Type := {
  client_Do : string -> Env -> DoOutcome Response Err * Env;
  row_Scan : string -> Env -> option Err * Env;
  rand_source : Env -> Z * Env;
  runtime_error : string -> Err
}.

(** What a handler runs on: the request collector, the calls made so far,
    the calls deferred by the function being run (latest first) and the
    outside. *)
Record World (Instrument Env : Type) : Type := {
  metrics : Usage Instrument;
  trace : list Action;
  deferred : list Action;
  outside : Env
}.
Arguments metrics {Instrument Env} w.
Arguments trace {Instrument Env} w.
Arguments deferred {Instrument Env} w.
Arguments outside {Instrument Env} w.

(** [*s3Client], as built by [NewS3Client]. *)
Inductive s3Client : Type :=
| s3Client_New.

(** [strconv.Itoa] on a non-negative number. *)
Definition Itoa (i : nat) : string :=
  NilEmpty.string_of_uint (Nat.to_uint i).

Section Handlers.

Context {Instrument Env Response Err : Type}
        {out : Outside Env Response Err}.

(** Handlers run in the monad of the start-up code, on a [World]; the
    lines of [slog.ErrorContext] go to its log. *)
Local Abbreviation Handler := (Startup (World Instrument Env) Err).

Definition act (a : Action) : Handler unit :=
  call (fun w => (tt, {| metrics := metrics w; trace := trace w ++ [a];
                         deferred := deferred w; outside := outside w |})).

(** [defer f()] *)
Definition defer (a : Action) : Handler unit :=
  call (fun w => (tt, {| metrics := metrics w; trace := trace w;
                         deferred := a :: deferred w;
                         outside := outside w |})).

Definition ask {A : Type} (op : Env -> A * Env) : Handler A :=
  call (fun w => let (a, e) := op (outside w) in
                 (a, {| metrics := metrics w; trace := trace w;
                        deferred := deferred w; outside := e |})).

(** A function body with its own deferred calls: they run, latest first,
    when the body returns and when it panics. *)
Definition func {A : Type} (body : Handler A) : Handler A :=
  fun s =>
    let w := sdk s in
    let (r, s1) :=
      body {| sdk := {| metrics := metrics w; trace := trace w;
                        deferred := []; outside := outside w |};
              logged := logged s |} in
    let w1 := sdk s1 in
    (r, {| sdk := {| metrics := metrics w1;
                     trace := trace w1 ++ deferred w1;
                     deferred := deferred w;
                     outside := outside w1 |};
           logged := logged s1 |}).

(** An operation of the request collector. *)
Definition metric (op : Op) : Handler unit :=
  fun s =>
    let w := sdk s in
    match apply_op op (metrics w) with
    | Panic m => (Panic (runtime_error m), s)
    | Value u =>
        (Value tt, {| sdk := {| metrics := u; trace := trace w;
                                deferred := deferred w;
                                outside := outside w |};
                      logged := logged s |})
    end.

Definition rqmc_AddApiRequest : Handler unit :=
  metric OpAddApiRequest.

Definition rqmc_UpdateTotalBytesSent : Handler unit :=
  raw <- ask rand_source ;; metric (OpUpdateTotalBytesSent raw).

Definition rqmc_UpdateLatencyTime : Handler unit :=
  raw <- ask rand_source ;; metric (OpUpdateLatencyTime raw).

(** [req, _ := http.NewRequestWithContext(ctx, "GET", url, nil)] and
    [res, err := client.Do(req)] *)
Definition Do (url : string) : Handler (option Response * option Err) :=
  _ <- act (HttpGet url) ;;
  o <- ask (client_Do url) ;;
  match o with
  | DoPanics e => panic e
  | DoReturns res err => ret (res, err)
  end.

Definition nil_dereference : Err :=
  runtime_error "invalid memory address or nil pointer dereference".

(** [defer res.Body.Close()]: [res.Body] is evaluated at the [defer]
    statement. *)
Definition defer_Body_Close (res : option Response) (url : string)
  : Handler unit :=
  match res with
  | None => panic nil_dereference
  | Some _ => defer (BodyClose url)
  end.

(** [writeResponse(span, w)], on the trace identifier of [span]. *)
Definition writeResponse (tid : TraceID) : Handler unit :=
  xrayTraceID <- match getXrayTraceID tid with
                 | Panic m => panic (runtime_error m)
                 | Value x => ret x
                 end ;;
  let payload := JsonResponse xrayTraceID in
  _ <- act (HeaderSet "Content-Type" "application/json") ;;
  act (WriteBody payload).

Definition AwsSdkCall (tid : TraceID) (s3 : option s3Client) : Handler unit :=
  func (
    _ <- act (HeaderSet "Content-Type" "application/json") ;;
    _ <- match s3 with
         | None => panic nil_dereference
         | Some _ => act ListBuckets
         end ;;
    _ <- act (SpanStart "aws-sdk-call") ;;
    _ <- defer (SpanEnd "aws-sdk-call") ;;
    _ <- rqmc_AddApiRequest ;;
    _ <- rqmc_UpdateTotalBytesSent ;;
    _ <- rqmc_UpdateLatencyTime ;;
    writeResponse tid).

Definition invoke (port : string) : Handler unit :=
  func (
    _ <- act (SpanStart "invoke-sample-app") ;;
    let addr := ("http://" ++ ("0.0.0.0" ++ ":" ++ port)
                 ++ "/outgoing-sampleapp")%string in
    _ <- act (LogInfo ("Making request to sample app on port " ++ port)) ;;
    ' (res, err) <- Do addr ;;
    _ <- if_err err (slog_Error "Error making request to amazon.com") ;;
    _ <- defer_Body_Close res addr ;;
    defer (SpanEnd "invoke-sample-app")).

Fixpoint invokeSampleApps (SampleAppPorts : list string) : Handler unit :=
  match SampleAppPorts with
  | [] => ret tt
  | port :: rest =>
      _ <- (if negb (port =? "")%string then invoke port else ret tt) ;;
      invokeSampleApps rest
  end.

(** [OutgoingSampleApp]; [SampleAppPorts] is [rqmc.config.SampleAppPorts]. *)
Definition OutgoingSampleApp (tid : TraceID) (SampleAppPorts : list string)
  : Handler unit :=
  func (
    _ <- act (SpanStart "invoke-sample-apps") ;;
    _ <- defer (SpanEnd "invoke-sample-apps") ;;
    let count := List.length SampleAppPorts in
    _ <- (if (count =? 0)%nat then
            _ <- act (SpanStart "leaf-request") ;;
            ' (res, err) <- Do "https://aws.amazon.com" ;;
            _ <- if_err err
                   (slog_Error "Error making request to amazon.com") ;;
            _ <- defer_Body_Close res "https://aws.amazon.com" ;;
            _ <- rqmc_AddApiRequest ;;
            _ <- rqmc_UpdateTotalBytesSent ;;
            _ <- rqmc_UpdateLatencyTime ;;
            act (SpanEnd "leaf-request")
          else invokeSampleApps SampleAppPorts) ;;
    writeResponse tid).

Definition OutgoingHttpCall (tid : TraceID) : Handler unit :=
  func (
    _ <- act (HeaderSet "Content-Type" "application/json") ;;
    _ <- act (SpanStart "outgoing-http-call") ;;
    _ <- defer (SpanEnd "outgoing-http-call") ;;
    _ <- act (LogInfo "Making request to aws.amazon.com") ;;
    ' (res, err) <- Do "https://aws.amazon.com/" ;;
    _ <- if_err err (slog_Error "Error making request to amazon.com") ;;
    _ <- defer_Body_Close res "https://aws.amazon.com/" ;;
    _ <- rqmc_AddApiRequest ;;
    _ <- rqmc_UpdateTotalBytesSent ;;
    _ <- rqmc_UpdateLatencyTime ;;
    writeResponse tid).

(** [for ; i < bound; i++ { body }], with [count] turns left. *)
Fixpoint for_loop (count i : nat) (body : nat -> Handler unit)
  : Handler unit :=
  match count with
  | O => ret tt
  | S c => _ <- body i ;; for_loop c (S i) body
  end.

Definition OutgoingPsqlCall (tid : TraceID) : Handler unit :=
  func (
    _ <- act (HeaderSet "Content-Type" "application/json") ;;
    _ <- act (SpanStart "outgoing-psql-call") ;;
    _ <- defer (SpanEnd "outgoing-psql-call") ;;
    _ <- for_loop 10 0 (fun i =>
           _ <- act (LogInfo ("Making SQL request to database " ++ Itoa i)) ;;
           _ <- act (QueryRow "SELECT 1") ;;
           err <- ask (row_Scan "SELECT 1") ;;
           if_err err (slog_Error "Error making request to amazon.com")) ;;
    ' (res, err) <- Do "https://aws.amazon.com/" ;;
    _ <- if_err err (slog_Error "Error making request to amazon.com") ;;
    _ <- defer_Body_Close res "https://aws.amazon.com/" ;;
    _ <- rqmc_AddApiRequest ;;
    _ <- rqmc_UpdateTotalBytesSent ;;
    _ <- rqmc_UpdateLatencyTime ;;
    writeResponse tid).

End Handlers.

(** Observations on the calls of a handler. *)

(** Spans started and not yet ended. *)
Fixpoint open_spans (acts : list Action) : Z :=
  match acts with
  | [] => 0
  | SpanStart _ :: rest => 1 + open_spans rest
  | SpanEnd _ :: rest => open_spans rest - 1
  | _ :: rest => open_spans rest
  end.

(** The bodies written. *)
Fixpoint bodies (acts : list Action) : list Payload :=
  match acts with
  | [] => []
  | WriteBody p :: rest => p :: bodies rest
  | _ :: rest => bodies rest
  end.

(** The URLs requested. *)
Fixpoint requested (acts : list Action) : list string :=
  match acts with
  | [] => []
  | HttpGet url :: rest => url :: requested rest
  | _ :: rest => requested rest
  end.

(** The queries sent to the database. *)
Fixpoint queries (acts : list Action) : list string :=
  match acts with
  | [] => []
  | QueryRow sql :: rest => sql :: queries rest
  | _ :: rest => queries rest
  end.

(** The messages written with [slog.InfoContext]. *)
Fixpoint infos (acts : list Action) : list string :=
  match acts with
  | [] => []
  | LogInfo msg :: rest => msg :: infos rest
  | _ :: rest => infos rest
  end.

(** The address [invoke] requests for a port. *)
Definition sample_app_addr (port : string) : string :=
  ("http://" ++ ("0.0.0.0" ++ ":" ++ port) ++ "/outgoing-sampleapp")%string.

(** ** [main]: the response writer of the logging middleware *)

(** A call on an [http.ResponseWriter]. *)
Inductive WriterCall : Type :=
| CallHeaderSet (key value : string)
| CallWrite (body : string)
| CallWriteHeader (code : Z).

(** [responseWriter]: the embedded writer, kept as the calls passed on to
    it, and the captured status. *)
Record responseWriter : Type := {
  ResponseWriter : list WriterCall;
  status : Z
}.

(** [wrapResponseWriter]: the status starts as [http.StatusOK]. *)
Definition wrapResponseWriter (w : list WriterCall) : responseWriter :=
  {| ResponseWriter := w; status := 200 |}.

(** [WriteHeader] captures the code and passes the call on. *)
Definition WriteHeader (code : Z) (rw : responseWriter) : responseWriter :=
  {| ResponseWriter := ResponseWriter rw ++ [CallWriteHeader code];
     status := code |}.

(** A call a handler makes on the wrapped writer: [WriteHeader] is the
    method above, the others are promoted from the embedded writer. *)
Definition on_wrapped (c : WriterCall) (rw : responseWriter) : responseWriter :=
  match c with
  | CallWriteHeader code => WriteHeader code rw
  | _ => {| ResponseWriter := ResponseWriter rw ++ [c]; status := status rw |}
  end.

(** [LoggerMiddleware]: [next] is given the wrapped writer; when it has
    returned, the request is logged with the captured status.  [next] is
    the calls it makes on its writer and whether it returns or panics. *)
Definition LoggerMiddleware (calls : list WriterCall) (returns : bool)
  (w : list WriterCall) : list WriterCall * option Z :=
  let wrappedWriter := wrapResponseWriter w in
  let wrappedWriter := fold_left (fun rw c => on_wrapped c rw) calls
                         wrappedWriter in
  (ResponseWriter wrappedWriter,
   if returns then Some (status wrappedWriter) else None).

(** The code of the last [WriteHeader] among the calls. *)
Fixpoint last_code (calls : list WriterCall) (default : Z) : Z :=
  match calls with
  | [] => default
  | CallWriteHeader code :: rest => last_code rest code
  | _ :: rest => last_code rest default
  end.

(** ** [main]: start-up and exit *)

(** The errors, if any, [main] gets back from what it starts. *)
Record Boot (Err : Type) : Type := {
  StartClient_err : option Err;
  LoadDefaultConfig_err : option Err;
  NewSession_err : option Err;
  Open_err : option Err;
  Ping_err : option Err;
  ListenAndServe_err : Err
}.
Arguments StartClient_err {Err} b.
Arguments LoadDefaultConfig_err {Err} b.
Arguments NewSession_err {Err} b.
Arguments Open_err {Err} b.
Arguments Ping_err {Err} b.
Arguments ListenAndServe_err {Err} b.

(** [NewS3Client], on the error of [session.NewSession]. *)
Definition NewS3Client {Err : Type} (err : option Err)
  : option s3Client * option Err :=
  match err with
  | Some e => (None, Some e)
  | None => (Some s3Client_New, None)
  end.

(** The calls [main] defers. *)
Inductive DeferredCall : Type :=
| shutdown
| conn_Close.

(** How [main] ends: [log.Fatal], which exits the process without running
    the deferred calls, or a panic, which runs them. *)
Inductive Ending (Err : Type) : Type :=
| LogFatal (e : Err)
| Panicking (e : Err)
| PanickingConfiguration (e : Err).
Arguments LogFatal {Err} e.
Arguments Panicking {Err} e.
Arguments PanickingConfiguration {Err} e.

Record MainRun (M Err : Type) : Type := {
  ending : Ending Err;
  at_end : StartupState M Err;
  s3 : option s3Client;
  deferred_run : list DeferredCall;
  served : bool
}.
Arguments ending {M Err} _.
Arguments at_end {M Err} _.
Arguments s3 {M Err} _.
Arguments deferred_run {M Err} _.
Arguments served {M Err} _.

(** [main], with [cfg] the configuration [GetConfiguration] returns.
    [served] tells whether [ListenAndServe] was reached; [s3] is the client
    the handlers are then given. *)
Definition main {M Instrument Err : Type} {meter : Meter M Instrument Err}
  (b : Boot Err) (cfg : Config) (s : StartupState M Err) : MainRun M Err :=
  match StartClient_err b with
  | Some err =>
      {| ending := LogFatal err; at_end := s; s3 := None;
         deferred_run := []; served := false |}
  | None =>
      (* defer shutdown(ctx) *)
      match main_metrics (Instrument := Instrument) cfg s with
      | (Panic e, s1) =>
          {| ending := Panicking e; at_end := s1; s3 := None;
             deferred_run := [shutdown]; served := false |}
      | (Value _, s1) =>
          match LoadDefaultConfig_err b with
          | Some err =>
              {| ending := PanickingConfiguration err; at_end := s1;
                 s3 := None; deferred_run := [shutdown]; served := false |}
          | None =>
              let (s3Client, err) := NewS3Client (NewSession_err b) in
              let s2 :=
                match err with
                | Some e =>
                    {| sdk := sdk s1;
                       logged := logged s1
                                 ++ [("Error creating S3 client"%string, e)] |}
                | None => s1
                end in
              match Open_err b with
              | Some err =>
                  {| ending := LogFatal err; at_end := s2; s3 := s3Client;
                     deferred_run := []; served := false |}
              | None =>
                  match Ping_err b with
                  | Some err =>
                      {| ending := LogFatal err; at_end := s2;
                         s3 := s3Client; deferred_run := [];
                         served := false |}
                  | None =>
                      (* defer conn.Close() *)
                      {| ending := LogFatal (ListenAndServe_err b);
                         at_end := s2; s3 := s3Client;
                         deferred_run := []; served := true |}
                  end
              end
          end
      end
  end.

(** ** Predicates on handler runs *)

(** The collector after one request was recorded with the draws [v1] and
    [v2]. *)
Definition recorded {Instrument : Type} (u : Usage Instrument) (v1 v2 : Z)
  : Usage Instrument :=
  {| collector := AddApiRequest (collector u);
     returned := returned u;
     pushed := (pushed u ++ [EvAdd TotalBytesSent v1])
               ++ [EvRecord LatencyTime v2] |}.

(** The world after a function has run: the collector, the calls it made
    and the outside it leaves; its deferred calls are gone. *)
Definition world_after {Instrument Env : Type} (w : World Instrument Env)
  (u : Usage Instrument) (made : list Action) (e : Env)
  : World Instrument Env :=
  {| metrics := u; trace := trace w ++ made; deferred := deferred w;
     outside := e |}.

(** The line [slog.ErrorContext] writes for a request error. *)
Definition request_error_line {Err : Type} (err : option Err)
  : list (string * Err) :=
  match err with
  | Some e => [("Error making request to amazon.com"%string, e)]
  | None => []
  end.

(** What a handler does for a request of the trace [tid], whatever the
    outside answers.  If it returns, it has ended every span it started,
    written one body, the X-Ray form of [tid], and, when [counts],
    recorded the request once.  If it panics, it has written no body and
    recorded nothing. *)
Definition serves {Instrument Env Err : Type} (tid : TraceID) (counts : bool)
  (h : Startup (World Instrument Env) Err unit) : Prop :=
  forall s : StartupState (World Instrument Env) Err,
  exists (made : list Action) (u : Usage Instrument) (e' : Env)
         (lines : list (string * Err)),
    snd (h s) = {| sdk := world_after (sdk s) u made e';
                   logged := logged s ++ lines |}
    /\ match fst (h s) with
       | Value _ =>
           open_spans made = 0
           /\ (exists x : string,
                  getXrayTraceID tid = Value x
                  /\ bodies made = [JsonResponse x])
           /\ (if counts
               then exists v1 v2 : Z,
                   0 <= v1 < 1024 /\ 0 <= v2 < 512
                   /\ u = recorded (metrics (sdk s)) v1 v2
               else u = metrics (sdk s))
       | Panic _ => bodies made = [] /\ u = metrics (sdk s)
       end.

(** The ports [invokeSampleApps] makes a request for. *)
Definition invoked_ports (SampleAppPorts : list string) : list string :=
  filter (fun port => negb (port =? "")%string) SampleAppPorts.

(** ** An outside to run the handlers on *)

(** The answers of the HTTP client, the errors of the scans and the draws
    of the random source, each in the order they are asked for; when a list
    is used up the client answers with a response, the scan succeeds and
    the draw is 0. *)
Record Script : Type := {
  answers : list (DoOutcome unit string);
  scans : list (option string);
  draws : list Z
}.

#[export] Instance scripted_outside : Outside Script unit string := {|
  client_Do := fun _ sc =>
    match answers sc with
    | [] => (DoReturns (Some tt) None, sc)
    | a :: rest =>
        (a, {| answers := rest; scans := scans sc; draws := draws sc |})
    end;
  row_Scan := fun _ sc =>
    match scans sc with
    | [] => (None, sc)
    | a :: rest =>
        (a, {| answers := answers sc; scans := rest; draws := draws sc |})
    end;
  rand_source := fun sc =>
    match draws sc with
    | [] => (0, sc)
    | a :: rest =>
        (a, {| answers := answers sc; scans := scans sc; draws := rest |})
    end;
  runtime_error := fun m => m
|}.

(** A request served on a collector just built. *)
Definition first_request (sc : Script)
  : StartupState (World Signal Script) string :=
  {| sdk := {| metrics := start_usage fresh_rqmc; trace := [];
               deferred := []; outside := sc |};
     logged := [] |}.

(** A 16-byte trace identifier. *)
Definition sample_tid : TraceID :=
  [x4b; xf9; x2f; x35; x77; xb3; x4d; xa6;
   xa3; xce; x92; x9d; x0e; x0e; x47; x36]%byte.

(** * Properties *)

(** ** Facts on 64-bit arithmetic *)

Module Int64Facts.
Import Int64.

Lemma wrap_in_range (z : Z) : in_range (wrap z).
Proof.
  unfold in_range, wrap, min_int64, max_int64, half_modulus, modulus.
  pose proof (Z.mod_pos_bound (z + 9223372036854775808) 18446744073709551616).
  lia.
Qed.

Lemma wrap_small (z : Z) : in_range z -> wrap z = z.
Proof.
  unfold in_range, wrap, min_int64, max_int64, half_modulus, modulus.
  intros Hz. rewrite Z.mod_small; lia.
Qed.

Lemma wrap_wrap (z : Z) : wrap (wrap z) = wrap z.
Proof. apply wrap_small, wrap_in_range. Qed.

Lemma wrap_add_l (a b : Z) : wrap (wrap a + b) = wrap (a + b).
Proof.
  unfold wrap, half_modulus, modulus.
  f_equal.
  replace ((a + 9223372036854775808) mod 18446744073709551616
           - 9223372036854775808 + b + 9223372036854775808)
    with ((a + 9223372036854775808) mod 18446744073709551616 + b) by lia.
  rewrite Zplus_mod_idemp_l. f_equal. lia.
Qed.

End Int64Facts.

Ltac int64_bounds :=
  unfold Int64.in_range, Int64.min_int64, Int64.max_int64,
    Int64.half_modulus in *.

(** Unfolds the 64-bit operations of the goal and removes the wrap-arounds
    that the hypotheses rule out. *)
Ltac int64_simpl :=
  unfold int, int64, Int64.add, Int64.sub, Int64.mul;
  repeat first
    [ rewrite Int64Facts.wrap_wrap
    | match goal with
      | |- context [Int64.wrap ?z] =>
          rewrite (Int64Facts.wrap_small z) by (int64_bounds; lia)
      end ].

(** ** The active-thread oscillator *)

Lemma added_app (s : Signal) (e1 e2 : list Event) :
  added s (e1 ++ e2) = added s e1 + added s e2.
Proof.
  induction e1 as [|e e1 IH]; cbn [added app].
  - reflexivity.
  - destruct e; rewrite IH; lia.
Qed.

Section Oscillator.

Variable cfg : Config.
Let ub : Z := ThreadsActiveUpperBound cfg.

Lemma updateThreadsActive_bounded (g : GeneratorState) :
  1 <= ub <= Int64.max_int64 ->
  count_bounded cfg g ->
  count_bounded cfg (fst (updateThreadsActive cfg g)).
Proof.
  unfold count_bounded, updateThreadsActive, ub. intros Hub Hg.
  destruct (threadsBool g); int64_simpl.
  - destruct (Z.ltb_spec (threadCount g) (ThreadsActiveUpperBound cfg));
      cbn [fst threadCount]; int64_simpl; lia.
  - destruct (Z.gtb_spec (threadCount g) 0);
      cbn [fst threadCount]; int64_simpl; lia.
Qed.

Lemma ticks_bounded (n : nat) :
  1 <= ub <= Int64.max_int64 ->
  forall g, count_bounded cfg g -> count_bounded cfg (fst (ticks cfg n g)).
Proof.
  intros Hub. induction n as [|n IH]; intros g Hg; cbn [ticks].
  - exact Hg.
  - pose proof (updateThreadsActive_bounded g Hub Hg) as H1.
    destruct (updateThreadsActive cfg g) as [g1 e1]. cbn [fst] in H1.
    specialize (IH g1 H1).
    destruct (ticks cfg n g1) as [g2 e2]. exact IH.
Qed.

Lemma updateThreadsActive_tracks (g : GeneratorState) (total : Z) :
  0 <= ub <= Int64.max_int64 ->
  tracks cfg g total ->
  tracks cfg (fst (updateThreadsActive cfg g))
         (total + added ThreadsActive (snd (updateThreadsActive cfg g))).
Proof.
  unfold tracks, updateThreadsActive, ub. intros Hub Hg.
  destruct (threadsBool g); int64_simpl.
  - destruct (Z.ltb_spec (threadCount g) (ThreadsActiveUpperBound cfg));
      cbn [fst snd threadCount threadsBool added Signal_eqb];
      int64_simpl; lia.
  - destruct (Z.gtb_spec (threadCount g) 0);
      cbn [fst snd threadCount threadsBool added Signal_eqb];
      int64_simpl; lia.
Qed.

Lemma ticks_tracks (n : nat) :
  0 <= ub <= Int64.max_int64 ->
  forall g total,
    tracks cfg g total ->
    tracks cfg (fst (ticks cfg n g))
      (total + added ThreadsActive (snd (ticks cfg n g))).
Proof.
  intros Hub. induction n as [|n IH]; intros g total Hg; cbn [ticks].
  - cbn [fst snd added]. now rewrite Z.add_0_r.
  - pose proof (updateThreadsActive_tracks g total Hub Hg) as H1.
    destruct (updateThreadsActive cfg g) as [g1 e1]. cbn [fst snd] in H1.
    specialize (IH g1 _ H1).
    destruct (ticks cfg n g1) as [g2 e2]. cbn [fst snd] in *.
    rewrite added_app. now rewrite Z.add_assoc.
Qed.

(** The value the threads-active instrument has accumulated stays within
    the bound, for every bound from 0 on, also the degenerate 0. *)
Lemma threadsActive_signal_bounded (T : nat) :
  0 <= ub <= Int64.max_int64 ->
  0 <= added ThreadsActive (snd (ticks cfg T initial_state)) <= ub.
Proof.
  intros Hub.
  assert (H0 : tracks cfg initial_state 0).
  { unfold tracks, initial_state; cbn. fold ub. lia. }
  pose proof (ticks_tracks T Hub initial_state 0 H0) as H.
  unfold tracks in H. fold ub in H.
  destruct (threadsBool (fst (ticks cfg T initial_state))); lia.
Qed.

End Oscillator.

(** The background loop moves the oscillator as [ticks] does, and adds the
    same amount to the time-alive counter at every turn. *)
Lemma tick_loop_ticks (cfg : Config) (n : nat) :
  forall g,
    fst (tick_loop cfg n g) = fst (ticks cfg n g)
    /\ added ThreadsActive (snd (tick_loop cfg n g))
       = added ThreadsActive (snd (ticks cfg n g))
    /\ added TimeAlive (snd (tick_loop cfg n g))
       = Z.of_nat n * Int64.mul (TimeAliveIncrementer cfg) 1000.
Proof.
  induction n as [|n IH]; intros g; cbn [tick_loop ticks].
  - cbn. auto.
  - assert (H0 : added TimeAlive (snd (updateThreadsActive cfg g)) = 0).
    { unfold updateThreadsActive.
      destruct (threadsBool g);
        [destruct (threadCount g <? int64 (ThreadsActiveUpperBound cfg))
        |destruct (threadCount g >? 0)]; reflexivity. }
    destruct (updateThreadsActive cfg g) as [g1 e1]. cbn [snd] in H0.
    destruct (IH g1) as (Hs & Ha & Ht).
    destruct (tick_loop cfg n g1) as [g2 e2].
    destruct (ticks cfg n g1) as [g2' e2']. cbn [fst snd] in *.
    rewrite !added_app, Ha, Ht, H0. unfold updateTimeAlive.
    cbn [added Signal_eqb]. rewrite Nat2Z.inj_succ.
    split; [exact Hs|split; lia].
Qed.

(** C1 (as the code behaves).  With bound 10, from count 0 ascending:
    ten ticks are ten increments, each emitting +1, and leave count 10 with
    the direction still ascending; the flip and the decrement come with the
    eleventh tick, which emits nothing and leaves count 9, descending. *)
Theorem ticks_bound_10 :
  ticks (cfg_threads 10) 10 initial_state
  = ({| threadCount := 10; threadsBool := true |},
     repeat (EvAdd ThreadsActive 1) 10)
  /\ ticks (cfg_threads 10) 11 initial_state
     = ({| threadCount := 9; threadsBool := false |},
        repeat (EvAdd ThreadsActive 1) 10).
Proof. split; vm_compute; reflexivity. Qed.

(** C1 as stated fails: after ten ticks the state is not (count 9,
    descending). *)
Lemma ticks_bound_10_not_flipped :
  let g := fst (ticks (cfg_threads 10) 10 initial_state) in
  ~ (threadsBool g = false /\ threadCount g = 9).
Proof. vm_compute. intros [H _]. discriminate H. Qed.

(** C2 (as the code behaves).  On a tick that finds the direction ascending
    and the count equal to the bound, the direction flips to descending and
    the count goes down by one, and nothing is added to the threads-active
    instrument; on a tick that finds it descending with count 0, the
    direction flips to ascending and the count goes up by one, again with
    nothing added.  A delta is added on the other ticks only: +1 while
    ascending below the bound, -1 while descending above 0. *)
Theorem updateThreadsActive_cases (cfg : Config) (g : GeneratorState) :
  Int64.in_range (ThreadsActiveUpperBound cfg) ->
  Int64.in_range (threadCount g) ->
  (threadsBool g = true ->
   threadCount g = ThreadsActiveUpperBound cfg ->
   Int64.min_int64 < ThreadsActiveUpperBound cfg ->
   updateThreadsActive cfg g
   = ({| threadCount := threadCount g - 1; threadsBool := false |}, []))
  /\ (threadsBool g = false ->
      threadCount g = 0 ->
      updateThreadsActive cfg g
      = ({| threadCount := threadCount g + 1; threadsBool := true |}, []))
  /\ (threadsBool g = true ->
      threadCount g < ThreadsActiveUpperBound cfg ->
      updateThreadsActive cfg g
      = ({| threadCount := threadCount g + 1; threadsBool := true |},
         [EvAdd ThreadsActive 1]))
  /\ (threadsBool g = false ->
      0 < threadCount g ->
      updateThreadsActive cfg g
      = ({| threadCount := threadCount g - 1; threadsBool := false |},
         [EvAdd ThreadsActive (-1)])).
Proof.
  intros Hub Hg. unfold updateThreadsActive.
  repeat split; intros Hdir Hcount; try intros Hmin; rewrite Hdir;
    int64_simpl.
  - destruct (Z.ltb_spec (threadCount g) (ThreadsActiveUpperBound cfg));
      [lia|]. int64_simpl. reflexivity.
  - destruct (Z.gtb_spec (threadCount g) 0); [lia|].
    int64_simpl. reflexivity.
  - destruct (Z.ltb_spec (threadCount g) (ThreadsActiveUpperBound cfg));
      [|lia]. int64_simpl. reflexivity.
  - destruct (Z.gtb_spec (threadCount g) 0); [|lia].
    int64_simpl. reflexivity.
Qed.

Lemma updateThreadsActive_cases_witness :
  updateThreadsActive (cfg_threads 10)
    {| threadCount := 10; threadsBool := true |}
  = ({| threadCount := 10 - 1; threadsBool := false |}, []).
Proof.
  apply (proj1 (updateThreadsActive_cases (cfg_threads 10)
                  {| threadCount := 10; threadsBool := true |}
                  ltac:(vm_compute; split; discriminate)
                  ltac:(vm_compute; split; discriminate))).
  - reflexivity.
  - reflexivity.
  - reflexivity.
Defined.

(** C2 as stated fails: with bound 10, the tick that finds the oscillator
    ascending at count 10 adds no -1 to the instrument. *)
Lemma flip_tick_adds_nothing :
  let cfg := cfg_threads 10 in
  let g := {| threadCount := 10; threadsBool := true |} in
  threadsBool g = true
  /\ threadCount g = int64 (ThreadsActiveUpperBound cfg)
  /\ snd (updateThreadsActive cfg g) <> [EvAdd ThreadsActive (-1)].
Proof. vm_compute. repeat split. discriminate. Qed.

(** C3 (as the code behaves).  For every bound from 1 on and every number
    of ticks, the count after the ticks, from the initial state, lies
    between 0 and the bound. *)
Theorem ticks_count_in_bounds (cfg : Config) (T : nat) :
  1 <= ThreadsActiveUpperBound cfg <= Int64.max_int64 ->
  0 <= threadCount (fst (ticks cfg T initial_state))
    <= ThreadsActiveUpperBound cfg.
Proof.
  intros Hub. apply (ticks_bounded cfg T Hub).
  unfold count_bounded, initial_state; cbn. lia.
Qed.

Lemma ticks_count_in_bounds_witness :
  0 <= threadCount (fst (ticks (cfg_threads 3) 25 initial_state)) <= 3.
Proof.
  apply (ticks_count_in_bounds (cfg_threads 3) 25).
  vm_compute. split; discriminate.
Defined.

(** C3 as stated fails for the bound 0: the first tick takes the count
    to -1. *)
Lemma ticks_bound_0_leaves_range :
  let cfg := cfg_threads 0 in
  0 <= ThreadsActiveUpperBound cfg
  /\ threadCount (fst (ticks cfg 1 initial_state)) = -1
  /\ ~ (0 <= threadCount (fst (ticks cfg 1 initial_state))
        <= ThreadsActiveUpperBound cfg).
Proof.
  vm_compute. repeat split; try discriminate.
  intros [H _]. apply H. reflexivity.
Qed.

(** ** The elapsed-time counter *)

(** C6 (as the code behaves).  One call of [updateTimeAlive] adds the
    64-bit product of the increment and 1000 to the time-alive counter;
    that is the increment times 1000 whenever this number is an [int64],
    and 5000 for the increment 5, whatever the interval. *)
Theorem updateTimeAlive_adds (cfg : Config) (before : list Event) :
  added TimeAlive (before ++ updateTimeAlive cfg)
  = added TimeAlive before + Int64.mul (TimeAliveIncrementer cfg) 1000
  /\ (Int64.in_range (TimeAliveIncrementer cfg * 1000) ->
      added TimeAlive (before ++ updateTimeAlive cfg)
      = added TimeAlive before + TimeAliveIncrementer cfg * 1000)
  /\ (TimeAliveIncrementer cfg = 5 ->
      added TimeAlive (before ++ updateTimeAlive cfg)
      = added TimeAlive before + 5000).
Proof.
  assert (H : added TimeAlive (before ++ updateTimeAlive cfg)
              = added TimeAlive before
                + Int64.mul (TimeAliveIncrementer cfg) 1000).
  { rewrite added_app. unfold updateTimeAlive. cbn [added Signal_eqb]. lia. }
  repeat split.
  - exact H.
  - intros Hr. rewrite H. unfold Int64.mul.
    now rewrite Int64Facts.wrap_small.
  - intros H5. rewrite H, H5. reflexivity.
Qed.

Lemma updateTimeAlive_adds_witness :
  let cfg := {| TimeInterval := 7; TimeAliveIncrementer := 5;
                TotalHeapSizeUpperBound := 1; ThreadsActiveUpperBound := 1;
                CpuUsageUpperBound := 1 |} in
  added TimeAlive ([EvAdd TimeAlive 5000] ++ updateTimeAlive cfg)
  = added TimeAlive [EvAdd TimeAlive 5000] + 5000.
Proof.
  intro cfg.
  apply (proj2 (proj2 (updateTimeAlive_adds cfg [EvAdd TimeAlive 5000]))).
  reflexivity.
Defined.

(** C6 as stated fails once the product leaves the 64-bit range: for the
    increment 9223372036854776 the call adds a negative number. *)
Lemma updateTimeAlive_wraps :
  let cfg := {| TimeInterval := 1; TimeAliveIncrementer := 9223372036854776;
                TotalHeapSizeUpperBound := 1; ThreadsActiveUpperBound := 1;
                CpuUsageUpperBound := 1 |} in
  Config_wf cfg
  /\ added TimeAlive (updateTimeAlive cfg) = -9223372036854775616
  /\ added TimeAlive (updateTimeAlive cfg) <> TimeAliveIncrementer cfg * 1000.
Proof.
  vm_compute. repeat split; discriminate.
Qed.

(** ** Draws *)

Lemma Intn_positive (raw n : Z) :
  0 < n -> exists r, Intn raw n = Value r /\ 0 <= r < n.
Proof.
  intros Hn. unfold Intn.
  destruct (Z.leb_spec n 0); [lia|].
  exists (raw mod n). split; [reflexivity|].
  apply Z.mod_pos_bound. exact Hn.
Qed.

Lemma Intn_panics (raw n : Z) : panics (Intn raw n) = true <-> n <= 0.
Proof.
  unfold Intn. destruct (Z.leb_spec n 0); cbn [panics]; split;
    intros; try lia; try reflexivity; discriminate.
Qed.

(** Every number of the interval is drawn for some state of the source. *)
Lemma Intn_onto (n r : Z) : 0 <= r < n -> Intn r n = Value r.
Proof.
  intros Hr. unfold Intn.
  destruct (Z.leb_spec n 0); [lia|]. now rewrite Z.mod_small.
Qed.

(** A sampler built on a bound [ub] that is an [int64]: it draws from
    [[0, ub)] when [ub] is positive and panics otherwise. *)
Lemma sample_positive (ub raw : Z) :
  1 <= ub <= Int64.max_int64 ->
  exists v,
    Intn raw (Int64.sub (int ub) 0) = Value v
    /\ int64 (Int64.add v 0) = v
    /\ 0 <= v < ub.
Proof.
  intros Hub. int64_simpl. rewrite Z.sub_0_r.
  destruct (Intn_positive raw ub) as [v [Hv Hr]]; [lia|].
  exists v. rewrite Z.add_0_r. int64_simpl. auto.
Qed.

Lemma sample_panics (ub raw : Z) :
  Int64.in_range ub ->
  panics (Intn raw (Int64.sub (int ub) 0)) = true <-> ub <= 0.
Proof.
  intros Hub. int64_simpl. rewrite Z.sub_0_r. int64_simpl.
  apply Intn_panics.
Qed.

Lemma panics_false_iff {E A : Type} (r : Result E A) :
  panics r = false <-> ~ panics r = true.
Proof. destruct r; cbn; split; intros; congruence. Qed.

(** C7.  On a valid sampling range (a bound from 1 on), every run of the
    CPU-usage callback and of the heap-size callback returns, and observes
    one value, which lies in [[0, bound)]. *)
Theorem samplers_in_range (cfg : Config) (c : Collection) :
  (1 <= CpuUsageUpperBound cfg <= Int64.max_int64 ->
   exists v, cpuUsageCallback cfg c = Value [EvObserve CpuUsage v]
             /\ 0 <= v < CpuUsageUpperBound cfg)
  /\ (1 <= TotalHeapSizeUpperBound cfg <= Int64.max_int64 ->
      exists v,
        totalHeapSizeCallback cfg c = Value [EvObserve TotalHeapSize v]
        /\ 0 <= v < TotalHeapSizeUpperBound cfg).
Proof.
  split; intros Hub.
  - destruct (sample_positive _ (draw c) Hub) as [v [Hv [Hc Hr]]].
    exists v. unfold cpuUsageCallback. cbv zeta.
    rewrite Hv, Hc. auto.
  - destruct (sample_positive _ (draw c) Hub) as [v [Hv [Hc Hr]]].
    exists v. unfold totalHeapSizeCallback. cbv zeta.
    rewrite Hv, Hc. auto.
Qed.

Lemma samplers_in_range_witness :
  let cfg := {| TimeInterval := 1; TimeAliveIncrementer := 1;
                TotalHeapSizeUpperBound := 500; ThreadsActiveUpperBound := 10;
                CpuUsageUpperBound := 100 |} in
  exists v, cpuUsageCallback cfg {| draw := 123456789; requests := 0 |}
            = Value [EvObserve CpuUsage v]
            /\ 0 <= v < 100.
Proof.
  intro cfg.
  apply (proj1 (samplers_in_range cfg {| draw := 123456789; requests := 0 |})).
  vm_compute. split; discriminate.
Defined.

Lemma UpdateTotalBytesSent_value (raw : Z) :
  exists v, UpdateTotalBytesSent raw = Value [EvAdd TotalBytesSent v]
            /\ 0 <= v < 1024.
Proof.
  destruct (sample_positive 1024 raw) as [v [Hv [Hc Hr]]];
    [vm_compute; split; discriminate|].
  exists v. unfold UpdateTotalBytesSent. cbv zeta.
  change (Int64.sub 1024 0) with (Int64.sub (int 1024) 0).
  rewrite Hv, Hc. auto.
Qed.

Lemma UpdateLatencyTime_value (raw : Z) :
  exists v, UpdateLatencyTime raw = Value [EvRecord LatencyTime v]
            /\ 0 <= v < 512.
Proof.
  destruct (sample_positive 512 raw) as [v [Hv [Hc Hr]]];
    [vm_compute; split; discriminate|].
  exists v. unfold UpdateLatencyTime. cbv zeta.
  change (Int64.sub 512 0) with (Int64.sub (int 512) 0).
  rewrite Hv, Hc. auto.
Qed.

(** C8.  Every call of [UpdateTotalBytesSent] returns and adds one value
    of [[0, 1024)] to the bytes-sent counter; every call of
    [UpdateLatencyTime] returns and records one value of [[0, 512)] in the
    latency histogram. *)
Theorem request_samples_in_range (raw : Z) :
  (exists v, UpdateTotalBytesSent raw = Value [EvAdd TotalBytesSent v]
             /\ 0 <= v < 1024)
  /\ (exists v, UpdateLatencyTime raw = Value [EvRecord LatencyTime v]
                /\ 0 <= v < 512).
Proof.
  split; [apply UpdateTotalBytesSent_value | apply UpdateLatencyTime_value].
Qed.

Lemma callback_panics_iff (s : Signal) (ub : Z) (c : Collection) :
  Int64.in_range ub ->
  panics (match Intn (draw c) (Int64.sub (int ub) 0) with
          | Panic e => Panic e
          | Value r => Value [EvObserve s (int64 (Int64.add r 0))]
          end) = true <-> ub <= 0.
Proof.
  intros Hub. rewrite <- (sample_panics ub (draw c) Hub).
  destruct (Intn (draw c) (Int64.sub (int ub) 0)); cbn [panics]; tauto.
Qed.

(** C10.  On every collection, the CPU-usage callback panics (in
    [rand.Intn]) exactly when the configured bound is 0 or negative, and
    returns exactly when it is 1 or more; likewise the heap-size
    callback. *)
Theorem samplers_partial (cfg : Config) (c : Collection) :
  Config_wf cfg ->
  (panics (cpuUsageCallback cfg c) = true <-> CpuUsageUpperBound cfg <= 0)
  /\ (panics (cpuUsageCallback cfg c) = false
      <-> 1 <= CpuUsageUpperBound cfg)
  /\ (panics (totalHeapSizeCallback cfg c) = true
      <-> TotalHeapSizeUpperBound cfg <= 0)
  /\ (panics (totalHeapSizeCallback cfg c) = false
      <-> 1 <= TotalHeapSizeUpperBound cfg).
Proof.
  intros (_ & _ & Hheap & _ & Hcpu).
  pose proof (callback_panics_iff CpuUsage _ c Hcpu) as Pc.
  pose proof (callback_panics_iff TotalHeapSize _ c Hheap) as Ph.
  unfold cpuUsageCallback, totalHeapSizeCallback. cbv zeta.
  rewrite !panics_false_iff, Pc, Ph. lia.
Qed.

Lemma samplers_partial_witness :
  let cfg := {| TimeInterval := 1; TimeAliveIncrementer := 1;
                TotalHeapSizeUpperBound := 500; ThreadsActiveUpperBound := 10;
                CpuUsageUpperBound := 0 |} in
  panics (cpuUsageCallback cfg {| draw := 42; requests := 0 |}) = true
  <-> CpuUsageUpperBound cfg <= 0.
Proof.
  intro cfg.
  apply (samplers_partial cfg {| draw := 42; requests := 0 |}).
  vm_compute. repeat split; discriminate.
Defined.

(** ** The request counter *)

Section RequestCounter.

Context {Instrument : Type}.
Implicit Types (rqmc : requestBasedMetricCollector Instrument)
               (u : Usage Instrument).

Lemma counter_AddApiRequest rqmc :
  counter (AddApiRequest rqmc) = Int64.wrap (counter rqmc + 1).
Proof. reflexivity. Qed.

(** [n] calls in a row: the counter has advanced by [n], modulo 2^64. *)
Lemma counter_iter_AddApiRequest (n : N) rqmc :
  Int64.in_range (counter rqmc) ->
  counter (N.iter n AddApiRequest rqmc)
  = Int64.wrap (counter rqmc + Z.of_N n).
Proof.
  intros Hc. induction n as [|n IH] using N.peano_ind.
  - cbn [N.iter]. rewrite Z.add_0_r. symmetry.
    now apply Int64Facts.wrap_small.
  - rewrite N.iter_succ, counter_AddApiRequest, IH.
    rewrite Int64Facts.wrap_add_l. f_equal. lia.
Qed.

Lemma GetApiRequest_iter (n : N) rqmc :
  Int64.in_range (counter rqmc) ->
  GetApiRequest (N.iter n AddApiRequest rqmc)
  = Int64.wrap (counter rqmc + Z.of_N n).
Proof.
  intros Hc. unfold GetApiRequest, int.
  rewrite (counter_iter_AddApiRequest n rqmc Hc).
  apply Int64Facts.wrap_wrap.
Qed.

Lemma StronglySorted_snoc (l : list Z) (a : Z) :
  StronglySorted Z.le l ->
  Forall (fun v => v <= a) l ->
  StronglySorted Z.le (l ++ [a]).
Proof.
  induction 1 as [|x l Hl IH Hx]; intros Ha; cbn [app].
  - repeat constructor.
  - inversion Ha as [|? ? Hxa Hla]; subst.
    constructor; [now apply IH|].
    apply Forall_app. split; [exact Hx|]. now constructor.
Qed.

Lemma apply_op_ordered (op : Op) u :
  Int64.in_range (counter (collector u)) ->
  counter (collector u) + adds [op] <= Int64.max_int64 ->
  reads_ordered u ->
  exists u',
    apply_op op u = Value u'
    /\ counter (collector u') = counter (collector u) + adds [op]
    /\ reads_ordered u'.
Proof.
  intros Hc Hmax [Hs Hf]. unfold reads_ordered.
  destruct op as [| |raw|raw]; cbn [apply_op].
  - eexists. split; [reflexivity|].
    cbn [collector returned]. rewrite counter_AddApiRequest.
    change (adds [OpAddApiRequest]) with 1 in *.
    int64_simpl. repeat split; [exact Hs|].
    eapply Forall_impl; [|exact Hf]. cbn beta. intros; lia.
  - eexists. split; [reflexivity|].
    cbn [collector returned]. change (adds [OpGetApiRequest]) with 0.
    unfold GetApiRequest. int64_simpl.
    repeat split; [lia| |].
    + now apply StronglySorted_snoc.
    + apply Forall_app. split; [exact Hf|]. constructor; [lia|constructor].
  - destruct (UpdateTotalBytesSent_value raw) as [v [Hv _]]. rewrite Hv.
    eexists. split; [reflexivity|]. cbn [collector returned].
    change (adds [OpUpdateTotalBytesSent raw]) with 0.
    repeat split; [lia|exact Hs|exact Hf].
  - destruct (UpdateLatencyTime_value raw) as [v [Hv _]]. rewrite Hv.
    eexists. split; [reflexivity|]. cbn [collector returned].
    change (adds [OpUpdateLatencyTime raw]) with 0.
    repeat split; [lia|exact Hs|exact Hf].
Qed.

Lemma adds_cons (op : Op) (ops : list Op) :
  adds (op :: ops) = adds [op] + adds ops.
Proof.
  unfold adds. cbn [filter]. destruct (is_add op); cbn [List.length]; lia.
Qed.

Lemma adds_nonneg (ops : list Op) : 0 <= adds ops.
Proof. unfold adds. lia. Qed.

Lemma apply_ops_ordered (ops : list Op) :
  forall u,
    Int64.in_range (counter (collector u)) ->
    counter (collector u) + adds ops <= Int64.max_int64 ->
    reads_ordered u ->
    exists u',
      apply_ops ops u = Value u'
      /\ counter (collector u') = counter (collector u) + adds ops
      /\ reads_ordered u'.
Proof.
  induction ops as [|op ops IH]; intros u Hc Hmax Hu; cbn [apply_ops].
  - exists u. change (adds []) with 0. repeat split; [lia|apply Hu..].
  - rewrite adds_cons in Hmax |- *.
    pose proof (adds_nonneg ops) as Hn.
    pose proof (adds_nonneg [op]) as Hn1.
    destruct (apply_op_ordered op u Hc ltac:(lia) Hu) as (u1 & H1 & Hc1 & Hu1).
    rewrite H1.
    destruct (IH u1) as (u2 & H2 & Hc2 & Hu2).
    + int64_bounds. lia.
    + lia.
    + exact Hu1.
    + exists u2. repeat split; [exact H2|lia|apply Hu2..].
Qed.

(** Operations other than [AddApiRequest] leave the collector as it is,
    and every read among them returns the same value. *)
Lemma apply_ops_without_add (ops : list Op) :
  forallb (fun op => negb (is_add op)) ops = true ->
  forall u,
    exists u' reads,
      apply_ops ops u = Value u'
      /\ collector u' = collector u
      /\ returned u' = returned u ++ reads
      /\ Forall (fun v => v = GetApiRequest (collector u)) reads.
Proof.
  induction ops as [|op ops IH]; intros Hops u; cbn [apply_ops].
  - exists u, []. rewrite app_nil_r. repeat split. constructor.
  - cbn [forallb] in Hops. apply andb_true_iff in Hops as [Hop Hops].
    specialize (IH Hops).
    destruct op as [| |raw|raw]; cbn [apply_op]; try discriminate Hop.
    + destruct (IH {| collector := collector u;
                      returned := returned u ++ [GetApiRequest (collector u)];
                      pushed := pushed u |}) as (u' & reads & H & Hc & Hr & Hf).
      cbn [collector returned] in *.
      exists u', (GetApiRequest (collector u) :: reads).
      repeat split; [exact H|exact Hc| |].
      * rewrite Hr, <- app_assoc. reflexivity.
      * constructor; [reflexivity|exact Hf].
    + destruct (UpdateTotalBytesSent_value raw) as [v [Hv _]]. rewrite Hv.
      destruct (IH {| collector := collector u; returned := returned u;
                      pushed := pushed u ++ [EvAdd TotalBytesSent v] |})
        as (u' & reads & H & Hc & Hr & Hf).
      cbn [collector returned] in *. exists u', reads. auto.
    + destruct (UpdateLatencyTime_value raw) as [v [Hv _]]. rewrite Hv.
      destruct (IH {| collector := collector u; returned := returned u;
                      pushed := pushed u ++ [EvRecord LatencyTime v] |})
        as (u' & reads & H & Hc & Hr & Hf).
      cbn [collector returned] in *. exists u', reads. auto.
Qed.

End RequestCounter.

(** ** Start-up *)

Section StartupFacts.

Context {M Instrument Err : Type} {meter : Meter M Instrument Err}.

(** Runs a registration function on the outcome of its constructor. *)
Ltac run_register create :=
  let inst := fresh "inst" in
  let err := fresh "err" in
  let m1 := fresh "m" in
  intros ? s; unfold bind, call, if_err, slog_Error, ret;
  destruct (create (sdk s)) as [[inst err] m1] eqn:?;
  destruct err; cbn [sdk logged]; rewrite ?app_nil_r;
  eexists; (split; [reflexivity|reflexivity]).

Lemma registerTimeAlive_logs :
  forall rmc : randomMetricCollector Instrument,
    logs_and_returns (Int64Counter TimeAlive)
      "Error registering TimeAlive metric" (registerTimeAlive rmc) timeAlive.
Proof.
  unfold logs_and_returns, registerTimeAlive.
  run_register (Int64Counter TimeAlive).
Qed.

Lemma registerCpuUsage_logs :
  forall rmc : randomMetricCollector Instrument,
    logs_and_returns (Int64ObservableGauge CpuUsage)
      "Error registering CpuUsage metric" (registerCpuUsage rmc) cpuUsage.
Proof.
  unfold logs_and_returns, registerCpuUsage.
  run_register (Int64ObservableGauge CpuUsage).
Qed.

Lemma registerHeapSize_logs :
  forall rmc : randomMetricCollector Instrument,
    logs_and_returns (Int64ObservableUpDownCounter TotalHeapSize)
      "Error registering HeapSize metric" (registerHeapSize rmc)
      totalHeapSize.
Proof.
  unfold logs_and_returns, registerHeapSize.
  run_register (Int64ObservableUpDownCounter TotalHeapSize).
Qed.

Lemma registerThreadsActive_logs :
  forall rmc : randomMetricCollector Instrument,
    logs_and_returns (Int64UpDownCounter ThreadsActive)
      "Error registering ThreadsActive metric" (registerThreadsActive rmc)
      threadsActive.
Proof.
  unfold logs_and_returns, registerThreadsActive.
  run_register (Int64UpDownCounter ThreadsActive).
Qed.

Lemma registerTotalBytesSent_logs :
  forall rqmc : requestBasedMetricCollector Instrument,
    logs_and_returns (Int64Counter TotalBytesSent)
      "Error registering TotalBytesSent metric"
      (registerTotalBytesSent rqmc) totalBytesSent.
Proof.
  unfold logs_and_returns, registerTotalBytesSent.
  run_register (Int64Counter TotalBytesSent).
Qed.

Lemma registerTotalRequests_logs :
  forall rqmc : requestBasedMetricCollector Instrument,
    logs_and_returns (Int64ObservableCounter TotalApiRequests)
      "Error registering TotalApiRequests metric"
      (registerTotalRequests rqmc) totalApiRequests.
Proof.
  unfold logs_and_returns, registerTotalRequests.
  run_register (Int64ObservableCounter TotalApiRequests).
Qed.

Lemma registerLatencyTime_logs :
  forall rqmc : requestBasedMetricCollector Instrument,
    logs_and_returns (Int64Histogram LatencyTime)
      "Error registering LatencyTime metric"
      (registerLatencyTime rqmc) latencyTime.
Proof.
  unfold logs_and_returns, registerLatencyTime.
  run_register (Int64Histogram LatencyTime).
Qed.

(** A function that logs and returns does return. *)
Lemma logs_and_returns_value {A : Type}
  (create : M -> (option Instrument * option Err) * M) (msg : string)
  (register : Startup M Err A) (slot : A -> option Instrument) :
  logs_and_returns create msg register slot ->
  forall s, exists a s', register s = (Value a, s').
Proof.
  intros H s. specialize (H s).
  destruct (create (sdk s)) as [[inst err] m1].
  destruct H as [a [H _]]. eauto.
Qed.

(** The registrations of the request collector keep its counter. *)
Lemma register_keeps_counter
  (f : requestBasedMetricCollector Instrument ->
       Startup M Err (requestBasedMetricCollector Instrument)) :
  f = registerTotalBytesSent \/ f = registerTotalRequests
  \/ f = registerLatencyTime ->
  forall rqmc s a s',
    f rqmc s = (Value a, s') -> counter a = counter rqmc.
Proof.
  intros Hf rqmc s a s'.
  destruct Hf as [-> | [-> | ->]];
    unfold registerTotalBytesSent, registerTotalRequests,
      registerLatencyTime, bind, call, if_err, slog_Error, ret;
    match goal with
    | |- context [match ?c (sdk s) with _ => _ end] =>
        destruct (c (sdk s)) as [[inst [e|]] m1]
    end;
    intros H; inversion H; reflexivity.
Qed.

Lemma NewRandomMetricCollector_returns (s : StartupState M Err) :
  exists rmc s', NewRandomMetricCollector s = (Value rmc, s').
Proof.
  unfold NewRandomMetricCollector. cbv zeta. unfold bind at 1.
  destruct (logs_and_returns_value _ _ _ _
              (registerHeapSize_logs
                 {| timeAlive := None; cpuUsage := None;
                    totalHeapSize := None; threadsActive := None |}) s)
    as (r1 & s1 & ->).
  unfold bind at 1.
  destruct (logs_and_returns_value _ _ _ _
              (registerThreadsActive_logs r1) s1) as (r2 & s2 & ->).
  unfold bind at 1.
  destruct (logs_and_returns_value _ _ _ _
              (registerTimeAlive_logs r2) s2) as (r3 & s3 & ->).
  unfold bind at 1.
  destruct (logs_and_returns_value _ _ _ _
              (registerCpuUsage_logs r3) s3) as (r4 & s4 & ->).
  unfold ret. eauto.
Qed.

Lemma NewRequestBasedMetricCollector_returns
  (cfg : Config) (s : StartupState M Err) :
  exists rqmc s',
    NewRequestBasedMetricCollector cfg s = (Value rqmc, s')
    /\ counter rqmc = 0.
Proof.
  unfold NewRequestBasedMetricCollector. cbv zeta. unfold bind at 1.
  destruct (logs_and_returns_value _ _ _ _
              (registerTotalBytesSent_logs
                 {| totalBytesSent := None; totalApiRequests := None;
                    latencyTime := None; config := cfg; counter := 0 |}) s)
    as (r1 & s1 & H1).
  rewrite H1. unfold bind at 1.
  destruct (logs_and_returns_value _ _ _ _
              (registerTotalRequests_logs r1) s1) as (r2 & s2 & H2).
  rewrite H2. unfold bind at 1.
  destruct (logs_and_returns_value _ _ _ _
              (registerLatencyTime_logs r2) s2) as (r3 & s3 & H3).
  rewrite H3. unfold ret. exists r3, s3. split; [reflexivity|].
  rewrite (register_keeps_counter registerLatencyTime ltac:(auto) _ _ _ _ H3).
  rewrite (register_keeps_counter registerTotalRequests ltac:(auto) _ _ _ _ H2).
  rewrite (register_keeps_counter registerTotalBytesSent ltac:(auto) _ _ _ _ H1).
  reflexivity.
Qed.

Lemma register_callback_panics
  (cb : Callback) (inst : option Instrument) :
  panics_on_error cb inst
    (err <- call (RegisterCallback cb inst) ;; if_err err panic).
Proof.
  intros s. unfold bind, call, if_err, panic, ret.
  destruct (RegisterCallback cb inst (sdk s)) as [[e|] m1];
    cbn [fst panics]; split; intros; congruence.
Qed.

End StartupFacts.




(** C5 (as the code behaves).  On a collector just built the counter is 0;
    of [n] calls of [AddApiRequest] in a row, for [n] up to 2^63 - 1, each
    one increases the counter by exactly 1, and the [GetApiRequest] that
    follows them returns [n]. *)
Theorem request_count_after_calls
  {M Instrument Err : Type} {meter : Meter M Instrument Err}
  (cfg : Config) (s : StartupState M Err) (n : N) :
  Z.of_N n <= Int64.max_int64 ->
  exists rqmc s',
    NewRequestBasedMetricCollector cfg s = (Value rqmc, s')
    /\ counter rqmc = 0
    /\ (forall k : N,
           (k < n)%N ->
           counter (AddApiRequest (N.iter k AddApiRequest rqmc))
           = counter (N.iter k AddApiRequest rqmc) + 1)
    /\ GetApiRequest (N.iter n AddApiRequest rqmc) = Z.of_N n.
Proof.
  intros Hn.
  destruct (NewRequestBasedMetricCollector_returns cfg s)
    as (rqmc & s' & Hnew & H0).
  assert (Hr : Int64.in_range (counter rqmc))
    by (rewrite H0; int64_bounds; lia).
  exists rqmc, s'. repeat split; [exact Hnew|exact H0| |].
  - intros k Hk. rewrite counter_AddApiRequest.
    rewrite (counter_iter_AddApiRequest k rqmc Hr), H0.
    int64_bounds. int64_simpl. reflexivity.
  - rewrite (GetApiRequest_iter n rqmc Hr), H0.
    apply Int64Facts.wrap_small. int64_bounds. lia.
Qed.

Lemma request_count_after_calls_witness :
  exists rqmc s',
    NewRequestBasedMetricCollector (cfg_threads 10) (boot [])
    = (Value rqmc, s')
    /\ counter rqmc = 0
    /\ (forall k : N,
           (k < 100)%N ->
           counter (AddApiRequest (N.iter k AddApiRequest rqmc))
           = counter (N.iter k AddApiRequest rqmc) + 1)
    /\ GetApiRequest (N.iter 100 AddApiRequest rqmc) = 100.
Proof.
  apply (request_count_after_calls (cfg_threads 10) (boot []) 100%N).
  vm_compute. discriminate.
Defined.

(** Read as a condition on the calls, the count is exact without a bound:
    if each of the [n] calls did increase the counter by exactly 1, the
    read returns [n]. *)
Lemma request_count_if_calls_increment {Instrument : Type}
  (rqmc : requestBasedMetricCollector Instrument) (n : N) :
  counter rqmc = 0 ->
  (forall k : N,
      (k < n)%N ->
      counter (AddApiRequest (N.iter k AddApiRequest rqmc))
      = counter (N.iter k AddApiRequest rqmc) + 1) ->
  GetApiRequest (N.iter n AddApiRequest rqmc) = Z.of_N n.
Proof.
  intros H0 Hinc.
  assert (Hc : forall k : N,
             (k <= n)%N -> counter (N.iter k AddApiRequest rqmc) = Z.of_N k).
  { induction k as [|k IH] using N.peano_ind; intros Hk.
    - exact H0.
    - rewrite N.iter_succ, Hinc by lia. rewrite IH by lia. lia. }
  unfold GetApiRequest, int. rewrite <- (Hc n) by lia.
  specialize (Hc n ltac:(lia)).
  assert (Hr : Int64.in_range (counter rqmc))
    by (rewrite H0; vm_compute; split; discriminate).
  rewrite (counter_iter_AddApiRequest n rqmc Hr).
  apply Int64Facts.wrap_wrap.
Qed.

(** C5 as stated fails at 2^63 calls: the counter has wrapped and the read
    returns -2^63. *)
Lemma request_count_wraps :
  NewRequestBasedMetricCollector (cfg_threads 10) (boot [])
  = (Value fresh_rqmc,
     {| sdk := [LatencyTime; TotalApiRequests; TotalBytesSent];
        logged := [] |})
  /\ GetApiRequest (N.iter 9223372036854775808 AddApiRequest fresh_rqmc)
     = -9223372036854775808
  /\ GetApiRequest (N.iter 9223372036854775808 AddApiRequest fresh_rqmc)
     <> Z.of_N 9223372036854775808.
Proof.
  split; [vm_compute; reflexivity|].
  rewrite GetApiRequest_iter by (vm_compute; split; discriminate).
  split; [vm_compute; reflexivity | vm_compute; discriminate].
Qed.

(** C9 (as the code behaves).  From a collector whose counter, increased
    by the number of [AddApiRequest] in the sequence, does not exceed
    2^63 - 1: every sequence of operations runs to its end, leaves the
    counter increased by that number, and the values [GetApiRequest]
    returned along the way are in non-decreasing order.  And in a sequence
    without [AddApiRequest] the counter is unchanged and every read
    returns the same value. *)
Theorem request_counter_monotone {Instrument : Type}
  (rqmc : requestBasedMetricCollector Instrument) (ops : list Op) :
  Int64.in_range (counter rqmc) ->
  (counter rqmc + adds ops <= Int64.max_int64 ->
   exists u,
     apply_ops ops (start_usage rqmc) = Value u
     /\ counter (collector u) = counter rqmc + adds ops
     /\ counter rqmc <= counter (collector u)
     /\ StronglySorted Z.le (returned u))
  /\ (forallb (fun op => negb (is_add op)) ops = true ->
      exists u,
        apply_ops ops (start_usage rqmc) = Value u
        /\ counter (collector u) = counter rqmc
        /\ Forall (fun v => v = GetApiRequest rqmc) (returned u)).
Proof.
  intros Hc. split.
  - intros Hmax.
    destruct (apply_ops_ordered ops (start_usage rqmc) Hc Hmax)
      as (u & Hu & Hcu & Hs & _).
    { split; constructor. }
    cbn [start_usage collector] in Hcu.
    pose proof (adds_nonneg ops).
    exists u. repeat split; [exact Hu|exact Hcu|lia|exact Hs].
  - intros Hops.
    destruct (apply_ops_without_add ops Hops (start_usage rqmc))
      as (u & reads & Hu & Hcu & Hr & Hf).
    cbn [start_usage collector returned app] in *.
    exists u. rewrite Hcu, Hr. auto.
Qed.

Lemma request_counter_monotone_witness :
  let ops := [OpGetApiRequest; OpAddApiRequest; OpUpdateTotalBytesSent 5000;
              OpGetApiRequest; OpGetApiRequest; OpAddApiRequest;
              OpUpdateLatencyTime 77; OpGetApiRequest] in
  exists u,
    apply_ops ops (start_usage fresh_rqmc) = Value u
    /\ counter (collector u) = counter fresh_rqmc + adds ops
    /\ counter fresh_rqmc <= counter (collector u)
    /\ StronglySorted Z.le (returned u).
Proof.
  intro ops.
  apply (proj1 (request_counter_monotone fresh_rqmc ops
                  ltac:(vm_compute; split; discriminate))).
  vm_compute. discriminate.
Defined.

(** C9 as stated fails at the end of the 64-bit range: after 2^63 - 1
    calls of [AddApiRequest] a read returns 2^63 - 1, and after one more
    call the next read returns -2^63. *)
Lemma request_counter_decreases :
  let full := N.iter 9223372036854775807 AddApiRequest fresh_rqmc in
  exists u,
    apply_ops [OpGetApiRequest; OpAddApiRequest; OpGetApiRequest]
      (start_usage full) = Value u
    /\ returned u = [9223372036854775807; -9223372036854775808]
    /\ ~ StronglySorted Z.le (returned u).
Proof.
  intro full.
  assert (Hc : counter full = 9223372036854775807).
  { unfold full.
    rewrite counter_iter_AddApiRequest by (vm_compute; split; discriminate).
    vm_compute. reflexivity. }
  clearbody full. destruct full as [b a l c n]. cbn [counter] in Hc. subst n.
  eexists. split; [reflexivity|].
  cbn [returned app]. split; [vm_compute; reflexivity|].
  intros H. vm_compute in H.
  inversion H as [|? ? _ Hall]; subst.
  inversion Hall as [|? ? Hle _]; subst.
  apply Hle. reflexivity.
Qed.

(** ** Trace identifiers *)

Lemma length_append (a b : string) :
  String.length (a ++ b) = (String.length a + String.length b)%nat.
Proof. induction a as [|c a IH]; cbn; [reflexivity | now rewrite IH]. Qed.

Lemma length_EncodeToString (bs : list Byte.byte) :
  String.length (EncodeToString bs) = (2 * List.length bs)%nat.
Proof.
  induction bs as [|b bs IH]; cbn [EncodeToString List.length].
  - reflexivity.
  - rewrite length_append, IH. cbn [hex_of_byte String.length]. lia.
Qed.

Lemma length_substring (s : string) :
  forall n m : nat,
    (n + m <= String.length s)%nat -> String.length (substring n m s) = m.
Proof.
  induction s as [|c s IH]; intros n m H; cbn [String.length] in H.
  - destruct n, m; cbn in *; try reflexivity; lia.
  - destruct n as [|n]; cbn [substring].
    + destruct m as [|m]; cbn [String.length]; [reflexivity|].
      rewrite IH; [reflexivity | lia].
    + apply IH. lia.
Qed.

Lemma substring_all (s : string) : substring 0 (String.length s) s = s.
Proof. induction s as [|c s IH]; cbn; [reflexivity | now rewrite IH]. Qed.

(** The two slices [s[0:k]] and [s[k:]] make up [s]. *)
Lemma substring_split (s : string) :
  forall k : nat,
    (k <= String.length s)%nat ->
    (substring 0 k s ++ substring k (String.length s - k) s)%string = s.
Proof.
  induction s as [|c s IH]; intros k H; cbn [String.length] in *.
  - destruct k; [reflexivity | lia].
  - destruct k as [|k].
    + cbn [substring append Nat.sub]. f_equal. apply substring_all.
    + cbn [substring append Nat.sub]. f_equal. apply IH. lia.
Qed.

Lemma append_same_length (a1 a2 b1 b2 : string) :
  String.length a1 = String.length a2 ->
  (a1 ++ b1)%string = (a2 ++ b2)%string ->
  a1 = a2 /\ b1 = b2.
Proof.
  revert a2. induction a1 as [|c a1 IH]; intros [|c2 a2] Hl H;
    cbn in *; try discriminate.
  - auto.
  - injection H as -> H. destruct (IH a2) as [-> ->]; auto.
Qed.

(** The two digits of a byte give its value back. *)
Lemma hex_of_byte_inj (b1 b2 : Byte.byte) :
  hex_of_byte b1 = hex_of_byte b2 -> b1 = b2.
Proof.
  intros H.
  assert (V : forall b, Byte.of_N
                (let digit c :=
                   match find (fun p => Ascii.eqb (fst p) c)
                           (combine hextable (seq 0 16)) with
                   | Some p => N.of_nat (snd p)
                   | None => 0%N
                   end in
                 match hex_of_byte b with
                 | String c (String d _) => 16 * digit c + digit d
                 | _ => 0
                 end)%N = Some b).
  { intros b. destruct b; vm_compute; reflexivity. }
  pose proof (V b1) as H1. pose proof (V b2) as H2.
  rewrite H in H1. rewrite H1 in H2. now injection H2.
Qed.

Lemma EncodeToString_inj (t1 t2 : list Byte.byte) :
  EncodeToString t1 = EncodeToString t2 -> t1 = t2.
Proof.
  revert t2. induction t1 as [|b1 t1 IH]; intros [|b2 t2] H.
  - reflexivity.
  - apply (f_equal String.length) in H.
    rewrite !length_EncodeToString in H. cbn in H. lia.
  - apply (f_equal String.length) in H.
    rewrite !length_EncodeToString in H. cbn in H. lia.
  - cbn [EncodeToString] in H.
    apply append_same_length in H as [Hb Ht]; [|reflexivity].
    apply hex_of_byte_inj in Hb. apply IH in Ht. congruence.
Qed.

(** X1.  [getXrayTraceID] panics exactly on an identifier of fewer than 4
    bytes.  On a 16-byte identifier it returns ["1-"], the first 8
    hexadecimal digits, ["-"] and the other 24: 35 characters, and the two
    groups of digits together are the hexadecimal form of the
    identifier. *)
Theorem getXrayTraceID_format (tid : TraceID) :
  (panics (getXrayTraceID tid) = true <-> (List.length tid < 4)%nat)
  /\ (List.length tid = 16%nat ->
      exists a b : string,
        getXrayTraceID tid = Value ("1-" ++ a ++ "-" ++ b)%string
        /\ String.length a = 8%nat
        /\ String.length b = 24%nat
        /\ String.length ("1-" ++ a ++ "-" ++ b) = 35%nat
        /\ (a ++ b)%string = EncodeToString tid).
Proof.
  unfold getXrayTraceID. cbv zeta.
  pose proof (length_EncodeToString tid) as HL.
  split.
  - destruct (Nat.ltb_spec (String.length (EncodeToString tid)) 8);
      cbn [panics]; split; intros; try lia; try reflexivity; discriminate.
  - intros H16.
    destruct (Nat.ltb_spec (String.length (EncodeToString tid)) 8); [lia|].
    exists (substring 0 8 (EncodeToString tid)),
           (substring 8 (String.length (EncodeToString tid) - 8)
              (EncodeToString tid)).
    assert (Ha : String.length (substring 0 8 (EncodeToString tid)) = 8%nat)
      by (apply length_substring; lia).
    assert (Hb : String.length
                   (substring 8 (String.length (EncodeToString tid) - 8)
                      (EncodeToString tid)) = 24%nat)
      by (rewrite length_substring; lia).
    repeat split; [exact Ha|exact Hb| |].
    + rewrite !length_append, Ha, Hb. reflexivity.
    + apply substring_split. lia.
Qed.

Lemma getXrayTraceID_format_witness :
  let tid := [x4b; xf9; x2f; x35; x77; xb3; x4d; xa6;
              xa3; xce; x92; x9d; x0e; x0e; x47; x36]%byte in
  exists a b : string,
    getXrayTraceID tid = Value ("1-" ++ a ++ "-" ++ b)%string
    /\ String.length a = 8%nat
    /\ String.length b = 24%nat
    /\ String.length ("1-" ++ a ++ "-" ++ b) = 35%nat
    /\ (a ++ b)%string = EncodeToString tid.
Proof.
  intro tid. apply (proj2 (getXrayTraceID_format tid)). reflexivity.
Defined.

(** X2.  Two identifiers of at least 4 bytes with the same X-Ray form are
    the same identifier. *)
Theorem getXrayTraceID_inj (t1 t2 : TraceID) :
  (4 <= List.length t1)%nat ->
  (4 <= List.length t2)%nat ->
  getXrayTraceID t1 = getXrayTraceID t2 ->
  t1 = t2.
Proof.
  unfold getXrayTraceID. cbv zeta. intros H1 H2.
  pose proof (length_EncodeToString t1) as L1.
  pose proof (length_EncodeToString t2) as L2.
  destruct (Nat.ltb_spec (String.length (EncodeToString t1)) 8); [lia|].
  destruct (Nat.ltb_spec (String.length (EncodeToString t2)) 8); [lia|].
  intros Heq. injection Heq as Heq.
  apply append_same_length in Heq as [Ha Hb];
    [|rewrite !length_substring; lia].
  cbn [append] in Hb. injection Hb as Hb.
  apply EncodeToString_inj.
  rewrite <- (substring_split (EncodeToString t1) 8) by lia.
  rewrite <- (substring_split (EncodeToString t2) 8) by lia.
  now rewrite Ha, Hb.
Qed.

Lemma getXrayTraceID_inj_witness :
  let t := [x4b; xf9; x2f; x35; x77; xb3; x4d; xa6;
            xa3; xce; x92; x9d; x0e; x0e; x47; x36]%byte in
  t = t.
Proof.
  intro t.
  apply (getXrayTraceID_inj t t); [vm_compute; lia.. | reflexivity].
Defined.

(** ** Request handlers *)

Lemma getXrayTraceID_value (tid : TraceID) :
  (4 <= List.length tid)%nat -> exists x, getXrayTraceID tid = Value x.
Proof.
  intros H. unfold getXrayTraceID. cbv zeta.
  pose proof (length_EncodeToString tid).
  destruct (Nat.ltb_spec (String.length (EncodeToString tid)) 8); [lia|].
  eauto.
Qed.

Lemma open_spans_app (a b : list Action) :
  open_spans (a ++ b) = open_spans a + open_spans b.
Proof.
  induction a as [|x a IH]; cbn [app open_spans]; [reflexivity|].
  destruct x; rewrite ?IH; lia.
Qed.

Lemma bodies_app (a b : list Action) : bodies (a ++ b) = bodies a ++ bodies b.
Proof.
  induction a as [|x a IH]; cbn [app bodies]; [reflexivity|].
  destruct x; rewrite ?IH; reflexivity.
Qed.

Lemma requested_app (a b : list Action) :
  requested (a ++ b) = requested a ++ requested b.
Proof.
  induction a as [|x a IH]; cbn [app requested]; [reflexivity|].
  destruct x; rewrite ?IH; reflexivity.
Qed.

Lemma queries_app (a b : list Action) :
  queries (a ++ b) = queries a ++ queries b.
Proof.
  induction a as [|x a IH]; cbn [app queries]; [reflexivity|].
  destruct x; rewrite ?IH; reflexivity.
Qed.

Lemma infos_app (a b : list Action) : infos (a ++ b) = infos a ++ infos b.
Proof.
  induction a as [|x a IH]; cbn [app infos]; [reflexivity|].
  destruct x; rewrite ?IH; reflexivity.
Qed.

Section HandlerFacts.

Context {Instrument Env Response Err : Type}
        {out : Outside Env Response Err}.

Implicit Types (s : StartupState (World Instrument Env) Err)
               (w : World Instrument Env)
               (tid : TraceID).

Lemma world_after_after w (u1 u2 : Usage Instrument)
  (m1 m2 : list Action) (e1 e2 : Env) :
  world_after (world_after w u1 m1 e1) u2 m2 e2
  = world_after w u2 (m1 ++ m2) e2.
Proof. unfold world_after. cbn. now rewrite app_assoc. Qed.

Lemma metrics_world_after w (u : Usage Instrument) (m : list Action)
  (e : Env) :
  metrics (world_after w u m e) = u.
Proof. reflexivity. Qed.

Lemma world_after_nothing w :
  world_after w (metrics w) [] (outside w) = w.
Proof. destruct w. unfold world_after. cbn. now rewrite app_nil_r. Qed.

(** Runs the monadic operations of a handler as far as the outside lets
    them go. *)
Ltac run :=
  cbv beta iota zeta delta
    [func bind act defer call Do ask ret panic if_err slog_Error
     defer_Body_Close rqmc_AddApiRequest rqmc_UpdateTotalBytesSent
     rqmc_UpdateLatencyTime metric writeResponse apply_op];
  cbn [sdk logged metrics trace deferred outside collector returned pushed].

(** Runs the next call on the request collector that draws a number. *)
Ltac run_metrics :=
  let raw := fresh "raw" in
  let v := fresh "v" in
  let Hv := fresh "Hv" in
  let e := fresh "e" in
  match goal with
  | |- context [rand_source ?e0] =>
      destruct (rand_source e0) as [raw e]; run;
      first [ destruct (UpdateTotalBytesSent_value raw) as [v [-> Hv]]
            | destruct (UpdateLatencyTime_value raw) as [v [-> Hv]] ];
      run
  end.

(** Brings the calls made into the form of a list appended to the trace. *)
Ltac trace_eq :=
  unfold world_after, recorded, request_error_line;
  cbn [sdk logged metrics trace deferred outside collector returned pushed];
  rewrite <- ?app_assoc; cbn [app]; rewrite ?app_nil_r;
  try reflexivity.

(** *** [OutgoingHttpCall] *)

Lemma OutgoingHttpCall_run tid (xray : string) s
  (o : DoOutcome Response Err) (e1 : Env) :
  getXrayTraceID tid = Value xray ->
  client_Do "https://aws.amazon.com/" (outside (sdk s)) = (o, e1) ->
  match o with
  | DoReturns (Some _) err =>
      exists (v1 v2 : Z) (e2 : Env),
        0 <= v1 < 1024 /\ 0 <= v2 < 512
        /\ OutgoingHttpCall tid s
           = (Value tt,
              {| sdk := world_after (sdk s)
                          (recorded (metrics (sdk s)) v1 v2)
                          [HeaderSet "Content-Type" "application/json";
                           SpanStart "outgoing-http-call";
                           LogInfo "Making request to aws.amazon.com";
                           HttpGet "https://aws.amazon.com/";
                           HeaderSet "Content-Type" "application/json";
                           WriteBody (JsonResponse xray);
                           BodyClose "https://aws.amazon.com/";
                           SpanEnd "outgoing-http-call"] e2;
                 logged := logged s ++ request_error_line err |})
  | DoReturns None err =>
      OutgoingHttpCall tid s
      = (Panic nil_dereference,
         {| sdk := world_after (sdk s) (metrics (sdk s))
                     [HeaderSet "Content-Type" "application/json";
                      SpanStart "outgoing-http-call";
                      LogInfo "Making request to aws.amazon.com";
                      HttpGet "https://aws.amazon.com/";
                      SpanEnd "outgoing-http-call"] e1;
            logged := logged s ++ request_error_line err |})
  | DoPanics pe =>
      OutgoingHttpCall tid s
      = (Panic pe,
         {| sdk := world_after (sdk s) (metrics (sdk s))
                     [HeaderSet "Content-Type" "application/json";
                      SpanStart "outgoing-http-call";
                      LogInfo "Making request to aws.amazon.com";
                      HttpGet "https://aws.amazon.com/";
                      SpanEnd "outgoing-http-call"] e1;
            logged := logged s |})
  end.
Proof.
  destruct s as [[u t d e] lg]. cbn [sdk outside logged metrics].
  intros Hx Hdo.
  destruct o as [pe|[r|] [er|]]; unfold OutgoingHttpCall; run;
    rewrite Hdo; run; try (trace_eq; fail).
  all: run_metrics; run_metrics; rewrite Hx; run;
    exists v, v0, e2; (split; [assumption|split; [assumption|]]);
    trace_eq.
Qed.

(** *** [AwsSdkCall] *)

Lemma AwsSdkCall_run tid (xray : string) s (s3 : option s3Client) :
  getXrayTraceID tid = Value xray ->
  match s3 with
  | Some _ =>
      exists (v1 v2 : Z) (e2 : Env),
        0 <= v1 < 1024 /\ 0 <= v2 < 512
        /\ AwsSdkCall tid s3 s
           = (Value tt,
              {| sdk := world_after (sdk s)
                          (recorded (metrics (sdk s)) v1 v2)
                          [HeaderSet "Content-Type" "application/json";
                           ListBuckets;
                           SpanStart "aws-sdk-call";
                           HeaderSet "Content-Type" "application/json";
                           WriteBody (JsonResponse xray);
                           SpanEnd "aws-sdk-call"] e2;
                 logged := logged s |})
  | None =>
      AwsSdkCall tid s3 s
      = (Panic nil_dereference,
         {| sdk := world_after (sdk s) (metrics (sdk s))
                     [HeaderSet "Content-Type" "application/json"]
                     (outside (sdk s));
            logged := logged s |})
  end.
Proof.
  destruct s as [[u t d e] lg]. cbn [sdk outside logged metrics].
  intros Hx.
  destruct s3 as [c|]; unfold AwsSdkCall; run; [|trace_eq].
  run_metrics; run_metrics; rewrite Hx; run.
  exists v, v0, e1. (split; [assumption|split; [assumption|]]). trace_eq.
Qed.

(** *** [invoke] and [invokeSampleApps] *)

Lemma invoke_run (port : string) s (o : DoOutcome Response Err) (e1 : Env) :
  client_Do (sample_app_addr port) (outside (sdk s)) = (o, e1) ->
  invoke port s
  = match o with
    | DoReturns (Some _) err =>
        (Value tt,
         {| sdk := world_after (sdk s) (metrics (sdk s))
                     [SpanStart "invoke-sample-app";
                      LogInfo ("Making request to sample app on port "
                               ++ port);
                      HttpGet (sample_app_addr port);
                      SpanEnd "invoke-sample-app";
                      BodyClose (sample_app_addr port)] e1;
            logged := logged s ++ request_error_line err |})
    | DoReturns None err =>
        (Panic nil_dereference,
         {| sdk := world_after (sdk s) (metrics (sdk s))
                     [SpanStart "invoke-sample-app";
                      LogInfo ("Making request to sample app on port "
                               ++ port);
                      HttpGet (sample_app_addr port)] e1;
            logged := logged s ++ request_error_line err |})
    | DoPanics pe =>
        (Panic pe,
         {| sdk := world_after (sdk s) (metrics (sdk s))
                     [SpanStart "invoke-sample-app";
                      LogInfo ("Making request to sample app on port "
                               ++ port);
                      HttpGet (sample_app_addr port)] e1;
            logged := logged s |})
    end.
Proof.
  destruct s as [[u t d e] lg]. cbn [sdk outside logged metrics].
  intros Hdo. unfold invoke. run.
  fold (sample_app_addr port). rewrite Hdo.
  destruct o as [pe|[r|] [er|]]; run; trace_eq.
Qed.

Lemma invokeSampleApps_run (ports : list string) :
  forall s,
  exists (made : list Action) (e' : Env) (lines : list (string * Err))
         (k : nat),
    snd (invokeSampleApps ports s)
    = {| sdk := world_after (sdk s) (metrics (sdk s)) made e';
         logged := logged s ++ lines |}
    /\ bodies made = []
    /\ requested made = firstn k (map sample_app_addr (invoked_ports ports))
    /\ match fst (invokeSampleApps ports s) with
       | Value _ =>
           open_spans made = 0
           /\ requested made = map sample_app_addr (invoked_ports ports)
       | Panic _ =>
           open_spans made = 1
           /\ (0 < k <= List.length (invoked_ports ports))%nat
       end.
Proof.
  induction ports as [|port rest IH]; intros s.
  - exists [], (outside (sdk s)), [], 0%nat. cbn.
    rewrite world_after_nothing, app_nil_r. destruct s. auto.
  - cbn [invokeSampleApps invoked_ports filter].
    destruct (port =? "")%string eqn:Hport; cbn [negb].
    + apply IH.
    + destruct (client_Do (sample_app_addr port) (outside (sdk s)))
        as [o e1] eqn:Hdo.
      unfold bind. rewrite (invoke_run port s o e1 Hdo).
      destruct o as [pe|[r|] err].
      * eexists _, e1, [], 1%nat. cbn [fst snd firstn map List.length].
        rewrite app_nil_r. repeat split; try reflexivity; lia.
      * match goal with
        | |- context [invokeSampleApps rest ?s1] =>
            destruct (IH s1) as (made & e' & lines & k & Hs & Hb & Hr & Hf);
            destruct (invokeSampleApps rest s1) as [r1 s2]
        end.
        cbn [fst snd sdk logged metrics] in *. subst s2.
        fold (invoked_ports rest).
        rewrite metrics_world_after, world_after_after, <- app_assoc.
        eexists _, e', _, (S k). split; [reflexivity|].
        rewrite bodies_app, requested_app, open_spans_app, Hb, Hr.
        cbn [bodies requested open_spans app firstn map List.length].
        repeat split.
        destruct r1; destruct Hf as [Ho Hk]; rewrite ?Ho;
          split; try lia; try reflexivity.
        f_equal. rewrite <- Hr. exact Hk.
      * eexists _, e1, _, 1%nat. cbn [fst snd firstn map List.length].
        repeat split; try reflexivity; lia.
Qed.

(** *** [OutgoingSampleApp] *)

Lemma OutgoingSampleApp_leaf_run tid (xray : string) s
  (o : DoOutcome Response Err) (e1 : Env) :
  getXrayTraceID tid = Value xray ->
  client_Do "https://aws.amazon.com" (outside (sdk s)) = (o, e1) ->
  match o with
  | DoReturns (Some _) err =>
      exists (v1 v2 : Z) (e2 : Env),
        0 <= v1 < 1024 /\ 0 <= v2 < 512
        /\ OutgoingSampleApp tid [] s
           = (Value tt,
              {| sdk := world_after (sdk s)
                          (recorded (metrics (sdk s)) v1 v2)
                          [SpanStart "invoke-sample-apps";
                           SpanStart "leaf-request";
                           HttpGet "https://aws.amazon.com";
                           SpanEnd "leaf-request";
                           HeaderSet "Content-Type" "application/json";
                           WriteBody (JsonResponse xray);
                           BodyClose "https://aws.amazon.com";
                           SpanEnd "invoke-sample-apps"] e2;
                 logged := logged s ++ request_error_line err |})
  | DoReturns None err =>
      OutgoingSampleApp tid [] s
      = (Panic nil_dereference,
         {| sdk := world_after (sdk s) (metrics (sdk s))
                     [SpanStart "invoke-sample-apps";
                      SpanStart "leaf-request";
                      HttpGet "https://aws.amazon.com";
                      SpanEnd "invoke-sample-apps"] e1;
            logged := logged s ++ request_error_line err |})
  | DoPanics pe =>
      OutgoingSampleApp tid [] s
      = (Panic pe,
         {| sdk := world_after (sdk s) (metrics (sdk s))
                     [SpanStart "invoke-sample-apps";
                      SpanStart "leaf-request";
                      HttpGet "https://aws.amazon.com";
                      SpanEnd "invoke-sample-apps"] e1;
            logged := logged s |})
  end.
Proof.
  destruct s as [[u t d e] lg]. cbn [sdk outside logged metrics].
  intros Hx Hdo.
  destruct o as [pe|[r|] [er|]]; unfold OutgoingSampleApp;
    cbn [List.length Nat.eqb]; run;
    rewrite Hdo; run; try (trace_eq; fail).
  all: run_metrics; run_metrics; rewrite Hx; run;
    exists v, v0, e2; (split; [assumption|split; [assumption|]]);
    trace_eq.
Qed.

Lemma OutgoingSampleApp_chain_run tid (xray : string)
  (ports : list string) s :
  ports <> [] ->
  getXrayTraceID tid = Value xray ->
  exists (made : list Action) (e' : Env) (lines : list (string * Err))
         (k : nat),
    snd (OutgoingSampleApp tid ports s)
    = {| sdk := world_after (sdk s) (metrics (sdk s)) made e';
         logged := logged s ++ lines |}
    /\ requested made = firstn k (map sample_app_addr (invoked_ports ports))
    /\ match fst (OutgoingSampleApp tid ports s) with
       | Value _ =>
           open_spans made = 0
           /\ requested made = map sample_app_addr (invoked_ports ports)
           /\ bodies made = [JsonResponse xray]
       | Panic _ =>
           open_spans made = 1
           /\ bodies made = []
           /\ (0 < k <= List.length (invoked_ports ports))%nat
       end.
Proof.
  intros Hne Hx. destruct ports as [|port rest]; [congruence|].
  destruct s as [[u t d e] lg].
  unfold OutgoingSampleApp. cbn [List.length Nat.eqb]. run.
  match goal with
  | |- context [invokeSampleApps (port :: rest) ?s1] =>
      destruct (invokeSampleApps_run (port :: rest) s1)
        as (made & e' & lines & k & Hs & Hb & Hr & Hf);
      destruct (invokeSampleApps (port :: rest) s1) as [r1 s2]
  end.
  cbn [fst snd sdk logged metrics] in *. subst s2.
  destruct r1 as [[]|pe]; destruct Hf as [Ho Hk]; run.
  - rewrite Hx. run. cbn [fst snd].
    eexists (SpanStart "invoke-sample-apps" :: made
             ++ [HeaderSet "Content-Type" "application/json";
                 WriteBody (JsonResponse xray);
                 SpanEnd "invoke-sample-apps"]), e', lines, k.
    split; [trace_eq|].
    cbn [requested open_spans bodies].
    rewrite requested_app, open_spans_app, bodies_app, Hb, Hr.
    cbn [requested open_spans bodies app]. rewrite app_nil_r.
    repeat split; try lia. rewrite <- Hr. exact Hk.
  - cbn [fst snd].
    eexists (SpanStart "invoke-sample-apps" :: made
             ++ [SpanEnd "invoke-sample-apps"]), e', lines, k.
    split; [trace_eq|].
    cbn [requested open_spans bodies].
    rewrite requested_app, open_spans_app, bodies_app, Hb, Hr.
    cbn [requested open_spans bodies app]. rewrite app_nil_r.
    repeat split; lia.
Qed.

(** *** [OutgoingPsqlCall] *)

(** The loop of [OutgoingPsqlCall] runs all its turns, whatever the scans
    return. *)
Lemma sql_loop_run (n : nat) :
  forall (i : nat) s,
  exists (made : list Action) (e' : Env) (lines : list (string * Err)),
    for_loop n i
      (fun i =>
         _ <- act (LogInfo ("Making SQL request to database " ++ Itoa i)) ;;
         _ <- act (QueryRow "SELECT 1") ;;
         err <- ask (row_Scan "SELECT 1") ;;
         if_err err (slog_Error "Error making request to amazon.com")) s
    = (Value tt,
       {| sdk := world_after (sdk s) (metrics (sdk s)) made e';
          logged := logged s ++ lines |})
    /\ queries made = repeat "SELECT 1"%string n
    /\ infos made
       = map (fun j => ("Making SQL request to database " ++ Itoa j)%string)
           (seq i n)
    /\ requested made = []
    /\ bodies made = []
    /\ open_spans made = 0
    /\ (List.length lines <= n)%nat.
Proof.
  set (body := fun i : nat => _).
  induction n as [|n IH]; intros i s.
  - exists [], (outside (sdk s)), []. cbn.
    rewrite world_after_nothing, app_nil_r. destruct s.
    repeat split; reflexivity || lia.
  - cbn [for_loop]. unfold bind at 1. unfold body at 1.
    destruct s as [[u t d e] lg]. run.
    destruct (row_Scan "SELECT 1" e) as [[er|] e1]; run.
    + match goal with
      | |- context [for_loop n (S i) body ?s1] =>
          destruct (IH (S i) s1)
            as (made & e' & lines & -> & Hq & Hi & Hr & Hb & Ho & Hl)
      end.
      cbn [sdk logged metrics trace deferred outside].
      eexists (LogInfo _ :: QueryRow _ :: made), e', (_ :: lines).
      split; [trace_eq|].
      cbn [queries infos requested bodies open_spans repeat seq map
           List.length].
      rewrite Hq, Hi, Hr, Hb, Ho. repeat split. lia.
    + match goal with
      | |- context [for_loop n (S i) body ?s1] =>
          destruct (IH (S i) s1)
            as (made & e' & lines & -> & Hq & Hi & Hr & Hb & Ho & Hl)
      end.
      cbn [sdk logged metrics trace deferred outside].
      eexists (LogInfo _ :: QueryRow _ :: made), e', lines.
      split; [trace_eq|].
      cbn [queries infos requested bodies open_spans repeat seq map
           List.length].
      rewrite Hq, Hi, Hr, Hb, Ho. repeat split. lia.
Qed.

Lemma OutgoingPsqlCall_run tid (xray : string) s :
  getXrayTraceID tid = Value xray ->
  exists (loop : list Action) (e0 : Env) (lines0 : list (string * Err)),
    queries loop = repeat "SELECT 1"%string 10
    /\ infos loop
       = map (fun j => ("Making SQL request to database " ++ Itoa j)%string)
           (seq 0 10)
    /\ requested loop = []
    /\ bodies loop = []
    /\ open_spans loop = 0
    /\ (List.length lines0 <= 10)%nat
    /\ forall (o : DoOutcome Response Err) (e1 : Env),
         client_Do "https://aws.amazon.com/" e0 = (o, e1) ->
         match o with
         | DoReturns (Some _) err =>
             exists (v1 v2 : Z) (e2 : Env),
               0 <= v1 < 1024 /\ 0 <= v2 < 512
               /\ OutgoingPsqlCall tid s
                  = (Value tt,
                     {| sdk := world_after (sdk s)
                                 (recorded (metrics (sdk s)) v1 v2)
                                 ([HeaderSet "Content-Type" "application/json";
                                   SpanStart "outgoing-psql-call"]
                                  ++ loop
                                  ++ [HttpGet "https://aws.amazon.com/";
                                      HeaderSet "Content-Type"
                                        "application/json";
                                      WriteBody (JsonResponse xray);
                                      BodyClose "https://aws.amazon.com/";
                                      SpanEnd "outgoing-psql-call"]) e2;
                        logged := logged s
                                  ++ lines0 ++ request_error_line err |})
         | DoReturns None err =>
             OutgoingPsqlCall tid s
             = (Panic nil_dereference,
                {| sdk := world_after (sdk s) (metrics (sdk s))
                            ([HeaderSet "Content-Type" "application/json";
                              SpanStart "outgoing-psql-call"]
                             ++ loop
                             ++ [HttpGet "https://aws.amazon.com/";
                                 SpanEnd "outgoing-psql-call"]) e1;
                   logged := logged s ++ lines0 ++ request_error_line err |})
         | DoPanics pe =>
             OutgoingPsqlCall tid s
             = (Panic pe,
                {| sdk := world_after (sdk s) (metrics (sdk s))
                            ([HeaderSet "Content-Type" "application/json";
                              SpanStart "outgoing-psql-call"]
                             ++ loop
                             ++ [HttpGet "https://aws.amazon.com/";
                                 SpanEnd "outgoing-psql-call"]) e1;
                   logged := logged s ++ lines0 |})
         end.
Proof.
  intros Hx. destruct s as [[u t d e] lg].
  destruct (sql_loop_run 10 0
              {| sdk := {| metrics := u;
                           trace := (t ++ [HeaderSet "Content-Type"
                                             "application/json"])
                                    ++ [SpanStart "outgoing-psql-call"];
                           deferred := [SpanEnd "outgoing-psql-call"];
                           outside := e |};
                 logged := lg |})
    as (loop & e0 & lines0 & Hloop & Hq & Hi & Hr & Hb & Ho & Hl).
  exists loop, e0, lines0. repeat split; try assumption.
  intros o e1 Hdo.
  destruct o as [pe|[r|] [er|]]; unfold OutgoingPsqlCall;
    match goal with
    | |- context [for_loop 10 0 ?b] => set (body := b) in *
    end;
    unfold func, bind at 1; unfold act at 1, call at 1;
    cbn [sdk logged metrics trace deferred outside];
    unfold bind at 1; unfold act at 1, call at 1;
    cbn [sdk logged metrics trace deferred outside];
    unfold bind at 1; unfold defer at 1, call at 1;
    cbn [sdk logged metrics trace deferred outside];
    unfold bind at 1; rewrite Hloop; clear Hloop; clearbody body;
    unfold world_after; run; rewrite Hdo; run; try (trace_eq; fail).
  all: run_metrics; run_metrics; rewrite Hx; run;
    exists v, v0, e3; (split; [assumption|split; [assumption|]]);
    trace_eq.
Qed.

(** *** Every handler serves its request *)

Lemma serves_OutgoingHttpCall tid :
  (4 <= List.length tid)%nat -> serves (Instrument := Instrument) tid true (OutgoingHttpCall tid).
Proof.
  intros H s. destruct (getXrayTraceID_value tid H) as [x Hx].
  destruct (client_Do "https://aws.amazon.com/" (outside (sdk s)))
    as [o e1] eqn:Hdo.
  pose proof (OutgoingHttpCall_run tid x s o e1 Hx Hdo) as R.
  destruct o as [pe|[r|] err].
  - rewrite R. cbn [fst snd]. eexists _, _, _, [].
    rewrite app_nil_r. split; [reflexivity|]. split; reflexivity.
  - destruct R as (v1 & v2 & e2 & H1 & H2 & ->). cbn [fst snd].
    eexists _, _, _, _. split; [reflexivity|].
    cbn [open_spans bodies]. repeat split; eauto.
  - rewrite R. cbn [fst snd]. eexists _, _, _, _.
    split; [reflexivity|]. split; reflexivity.
Qed.

Lemma serves_AwsSdkCall tid (s3 : option s3Client) :
  (4 <= List.length tid)%nat -> serves (Instrument := Instrument) tid true (AwsSdkCall tid s3).
Proof.
  intros H s. destruct (getXrayTraceID_value tid H) as [x Hx].
  pose proof (AwsSdkCall_run tid x s s3 Hx) as R.
  destruct s3 as [c|].
  - destruct R as (v1 & v2 & e2 & H1 & H2 & ->). cbn [fst snd].
    eexists _, _, _, []. rewrite app_nil_r. split; [reflexivity|].
    cbn [open_spans bodies]. repeat split; eauto.
  - rewrite R. cbn [fst snd]. eexists _, _, _, [].
    rewrite app_nil_r. split; [reflexivity|]. split; reflexivity.
Qed.

Lemma serves_OutgoingPsqlCall tid :
  (4 <= List.length tid)%nat -> serves (Instrument := Instrument) tid true (OutgoingPsqlCall tid).
Proof.
  intros H s. destruct (getXrayTraceID_value tid H) as [x Hx].
  destruct (OutgoingPsqlCall_run tid x s Hx)
    as (loop & e0 & lines0 & Hq & Hi & Hr & Hb & Ho & Hl & R).
  destruct (client_Do "https://aws.amazon.com/" e0) as [o e1] eqn:Hdo.
  specialize (R o e1 eq_refl).
  destruct o as [pe|[r|] err].
  - rewrite R. cbn [fst snd]. eexists _, _, _, _.
    rewrite <- (app_nil_r lines0) at 1. split; [reflexivity|].
    rewrite !bodies_app, Hb. split; reflexivity.
  - destruct R as (v1 & v2 & e2 & H1 & H2 & ->). cbn [fst snd].
    eexists _, _, _, _. split; [reflexivity|].
    rewrite !bodies_app, !open_spans_app, Hb, Ho.
    cbn [open_spans bodies app]. repeat split; eauto.
  - rewrite R. cbn [fst snd]. eexists _, _, _, _.
    split; [reflexivity|]. rewrite !bodies_app, Hb. split; reflexivity.
Qed.

Lemma serves_OutgoingSampleApp tid (ports : list string) :
  (4 <= List.length tid)%nat ->
  serves (Instrument := Instrument) tid (List.length ports =? 0)%nat
    (OutgoingSampleApp tid ports).
Proof.
  intros H s. destruct (getXrayTraceID_value tid H) as [x Hx].
  destruct ports as [|port rest].
  - cbn [List.length Nat.eqb].
    destruct (client_Do "https://aws.amazon.com" (outside (sdk s)))
      as [o e1] eqn:Hdo.
    pose proof (OutgoingSampleApp_leaf_run tid x s o e1 Hx Hdo) as R.
    destruct o as [pe|[r|] err].
    + rewrite R. cbn [fst snd]. eexists _, _, _, [].
      rewrite app_nil_r. split; [reflexivity|]. split; reflexivity.
    + destruct R as (v1 & v2 & e2 & H1 & H2 & ->). cbn [fst snd].
      eexists _, _, _, _. split; [reflexivity|].
      cbn [open_spans bodies]. repeat split; eauto.
    + rewrite R. cbn [fst snd]. eexists _, _, _, _.
      split; [reflexivity|]. split; reflexivity.
  - cbn [List.length Nat.eqb].
    destruct (OutgoingSampleApp_chain_run tid x (port :: rest) s
                ltac:(discriminate) Hx)
      as (made & e' & lines & k & Hs & Hr & Hf).
    exists made, (metrics (sdk s)), e', lines. split; [exact Hs|].
    destruct (fst (OutgoingSampleApp tid (port :: rest) s)).
    + destruct Hf as (Ho & _ & Hb). repeat split; eauto.
    + destruct Hf as (_ & Hb & _). split; [exact Hb|reflexivity].
Qed.

(** X3.  When the client answers the request of [OutgoingHttpCall] with a
    response (with or without an error), the handler returns; it has
    recorded the request once, with a byte count of [[0, 1024)] and a
    latency of [[0, 512)], logged the error if there is one, and made its
    calls in this order: the header, the span, the request, the header
    and the body (the X-Ray form of the trace identifier), and only then
    the close of the response body and the end of the span. *)
Theorem OutgoingHttpCall_with_response tid (xray : string) s
  (r : Response) (err : option Err) (e1 : Env) :
  getXrayTraceID tid = Value xray ->
  client_Do "https://aws.amazon.com/" (outside (sdk s))
  = (DoReturns (Some r) err, e1) ->
  exists (v1 v2 : Z) (e2 : Env),
    0 <= v1 < 1024 /\ 0 <= v2 < 512
    /\ OutgoingHttpCall tid s
       = (Value tt,
          {| sdk := world_after (sdk s) (recorded (metrics (sdk s)) v1 v2)
                      [HeaderSet "Content-Type" "application/json";
                       SpanStart "outgoing-http-call";
                       LogInfo "Making request to aws.amazon.com";
                       HttpGet "https://aws.amazon.com/";
                       HeaderSet "Content-Type" "application/json";
                       WriteBody (JsonResponse xray);
                       BodyClose "https://aws.amazon.com/";
                       SpanEnd "outgoing-http-call"] e2;
             logged := logged s ++ request_error_line err |}).
Proof.
  intros Hx Hdo. exact (OutgoingHttpCall_run tid xray s _ e1 Hx Hdo).
Qed.

(** X4.  When the client answers the request of [OutgoingHttpCall] with no
    response, the handler logs the error, if there is one, and panics on
    the nil response at [defer res.Body.Close()]: the request is not
    recorded, no body is written, and the span is ended by the deferred
    call. *)
Theorem OutgoingHttpCall_without_response tid s
  (err : option Err) (e1 : Env) :
  client_Do "https://aws.amazon.com/" (outside (sdk s))
  = (DoReturns None err, e1) ->
  OutgoingHttpCall tid s
  = (Panic nil_dereference,
     {| sdk := world_after (sdk s) (metrics (sdk s))
                 [HeaderSet "Content-Type" "application/json";
                  SpanStart "outgoing-http-call";
                  LogInfo "Making request to aws.amazon.com";
                  HttpGet "https://aws.amazon.com/";
                  SpanEnd "outgoing-http-call"] e1;
        logged := logged s ++ request_error_line err |}).
Proof.
  destruct s as [[u t d e] lg]. cbn [sdk outside logged metrics].
  intros Hdo. unfold OutgoingHttpCall. run. rewrite Hdo.
  destruct err as [er|]; run; trace_eq.
Qed.

(** X5.  [AwsSdkCall] with a nil S3 client panics right after setting the
    header: no span is started, nothing is recorded, no body is written.
    With a client it returns whatever [ListBuckets] does: the request is
    recorded once and the body written before the span ends. *)
Theorem AwsSdkCall_needs_client tid s :
  AwsSdkCall tid None s
  = (Panic nil_dereference,
     {| sdk := world_after (sdk s) (metrics (sdk s))
                 [HeaderSet "Content-Type" "application/json"]
                 (outside (sdk s));
        logged := logged s |})
  /\ forall (c : s3Client) (xray : string),
       getXrayTraceID tid = Value xray ->
       exists (v1 v2 : Z) (e2 : Env),
         0 <= v1 < 1024 /\ 0 <= v2 < 512
         /\ AwsSdkCall tid (Some c) s
            = (Value tt,
               {| sdk := world_after (sdk s)
                           (recorded (metrics (sdk s)) v1 v2)
                           [HeaderSet "Content-Type" "application/json";
                            ListBuckets;
                            SpanStart "aws-sdk-call";
                            HeaderSet "Content-Type" "application/json";
                            WriteBody (JsonResponse xray);
                            SpanEnd "aws-sdk-call"] e2;
                  logged := logged s |}).
Proof.
  split.
  - destruct s as [[u t d e] lg]. unfold AwsSdkCall. run. trace_eq.
  - intros c xray Hx. exact (AwsSdkCall_run tid xray s (Some c) Hx).
Qed.

(** X6.  [OutgoingPsqlCall] sends its ten queries whatever their scans
    return, announcing them with the numbers 0 to 9, and then makes its one
    HTTP request: this holds of every run, also of one that panics
    afterwards. *)
Theorem OutgoingPsqlCall_ten_queries tid s :
  (4 <= List.length tid)%nat ->
  exists made : list Action,
    trace (sdk (snd (OutgoingPsqlCall tid s))) = trace (sdk s) ++ made
    /\ queries made = repeat "SELECT 1"%string 10
    /\ infos made
       = map (fun j => ("Making SQL request to database " ++ Itoa j)%string)
           (seq 0 10)
    /\ requested made = ["https://aws.amazon.com/"%string].
Proof.
  intros H. destruct (getXrayTraceID_value tid H) as [x Hx].
  destruct (OutgoingPsqlCall_run tid x s Hx)
    as (loop & e0 & lines0 & Hq & Hi & Hr & Hb & Ho & Hl & R).
  destruct (client_Do "https://aws.amazon.com/" e0) as [o e1] eqn:Hdo.
  specialize (R o e1 eq_refl).
  destruct o as [pe|[r|] err];
    [|destruct R as (v1 & v2 & e2 & _ & _ & R)|];
    rewrite R; cbn [snd sdk]; unfold world_after; cbn [trace];
    eexists; (split; [reflexivity|]);
    rewrite !queries_app, !infos_app, !requested_app, Hq, Hi, Hr;
    cbn [queries infos requested app]; rewrite !app_nil_r;
    repeat split; reflexivity.
Qed.

(** X7.  With a non-empty port list, [OutgoingSampleApp] never touches the
    request collector.  It asks the sample apps of the non-empty ports, in
    the order of the list, at [http://0.0.0.0:<port>/outgoing-sampleapp],
    and stops at the first request that panics or has no response; when it
    returns it has asked them all, ended every span and written the
    body. *)
Theorem OutgoingSampleApp_chain tid (ports : list string) s :
  ports <> [] ->
  (4 <= List.length tid)%nat ->
  exists (made : list Action) (k : nat),
    trace (sdk (snd (OutgoingSampleApp tid ports s))) = trace (sdk s) ++ made
    /\ metrics (sdk (snd (OutgoingSampleApp tid ports s))) = metrics (sdk s)
    /\ requested made = firstn k (map sample_app_addr (invoked_ports ports))
    /\ match fst (OutgoingSampleApp tid ports s) with
       | Value _ =>
           requested made = map sample_app_addr (invoked_ports ports)
           /\ open_spans made = 0
           /\ exists x, getXrayTraceID tid = Value x
                        /\ bodies made = [JsonResponse x]
       | Panic _ =>
           (0 < k <= List.length (invoked_ports ports))%nat
           /\ open_spans made = 1
           /\ bodies made = []
       end.
Proof.
  intros Hne H. destruct (getXrayTraceID_value tid H) as [x Hx].
  destruct (OutgoingSampleApp_chain_run tid x ports s Hne Hx)
    as (made & e' & lines & k & Hs & Hr & Hf).
  exists made, k. rewrite Hs. cbn [sdk]. unfold world_after. cbn [trace metrics].
  repeat split; try assumption.
  destruct (fst (OutgoingSampleApp tid ports s)).
  - destruct Hf as (Ho & Ha & Hb). eauto.
  - destruct Hf as (Ho & Hb & Hk). auto.
Qed.

(** X8.  With an empty port list, [OutgoingSampleApp] makes the leaf
    request to [https://aws.amazon.com]; given a response it returns with
    the request recorded once, and the leaf span is ended before the body
    is written, the response body closed and the outer span ended
    after. *)
Theorem OutgoingSampleApp_leaf tid (xray : string) s
  (r : Response) (err : option Err) (e1 : Env) :
  getXrayTraceID tid = Value xray ->
  client_Do "https://aws.amazon.com" (outside (sdk s))
  = (DoReturns (Some r) err, e1) ->
  exists (v1 v2 : Z) (e2 : Env),
    0 <= v1 < 1024 /\ 0 <= v2 < 512
    /\ OutgoingSampleApp tid [] s
       = (Value tt,
          {| sdk := world_after (sdk s) (recorded (metrics (sdk s)) v1 v2)
                      [SpanStart "invoke-sample-apps";
                       SpanStart "leaf-request";
                       HttpGet "https://aws.amazon.com";
                       SpanEnd "leaf-request";
                       HeaderSet "Content-Type" "application/json";
                       WriteBody (JsonResponse xray);
                       BodyClose "https://aws.amazon.com";
                       SpanEnd "invoke-sample-apps"] e2;
             logged := logged s ++ request_error_line err |}).
Proof.
  intros Hx Hdo. exact (OutgoingSampleApp_leaf_run tid xray s _ e1 Hx Hdo).
Qed.

(** X9.  When the first sample app asked has no response, [invoke] panics
    before deferring the end of its span: the span of [invoke] stays open,
    the ports after it are not asked, no body is written, and only the
    span of [OutgoingSampleApp] is ended. *)
Theorem OutgoingSampleApp_stops_without_response tid
  (port : string) (rest : list string) s (err : option Err) (e1 : Env) :
  port <> ""%string ->
  client_Do (sample_app_addr port) (outside (sdk s))
  = (DoReturns None err, e1) ->
  OutgoingSampleApp tid (port :: rest) s
  = (Panic nil_dereference,
     {| sdk := world_after (sdk s) (metrics (sdk s))
                 [SpanStart "invoke-sample-apps";
                  SpanStart "invoke-sample-app";
                  LogInfo ("Making request to sample app on port " ++ port);
                  HttpGet (sample_app_addr port);
                  SpanEnd "invoke-sample-apps"] e1;
        logged := logged s ++ request_error_line err |}).
Proof.
  intros Hport Hdo. apply String.eqb_neq in Hport.
  destruct s as [[u t d e] lg]. cbn [sdk outside logged metrics] in *.
  unfold OutgoingSampleApp. cbn [List.length Nat.eqb]. run.
  cbn [invokeSampleApps]. rewrite Hport. cbn [negb]. unfold bind.
  match goal with
  | |- context [invoke port ?s1] => rewrite (invoke_run port s1 _ e1 Hdo)
  end.
  run. trace_eq.
Qed.

(** X10.  Every handler serves its request in the same way, whatever the
    outside answers: if it returns it has ended every span it started,
    written exactly one body, the X-Ray form of the trace identifier, and
    recorded the request exactly once ([OutgoingSampleApp] with a
    non-empty port list records nothing); if it panics it has written no
    body and recorded nothing. *)
Theorem handlers_serve tid (s3c : option s3Client) (ports : list string) :
  (4 <= List.length tid)%nat ->
  serves (Instrument := Instrument) tid true (AwsSdkCall tid s3c)
  /\ serves (Instrument := Instrument) tid true (OutgoingHttpCall tid)
  /\ serves (Instrument := Instrument) tid true (OutgoingPsqlCall tid)
  /\ serves (Instrument := Instrument) tid (List.length ports =? 0)%nat
       (OutgoingSampleApp tid ports).
Proof.
  intros H. repeat split.
  - now apply serves_AwsSdkCall.
  - now apply serves_OutgoingHttpCall.
  - now apply serves_OutgoingPsqlCall.
  - now apply serves_OutgoingSampleApp.
Qed.

End HandlerFacts.

Lemma OutgoingHttpCall_with_response_witness :
  let sc := {| answers := []; scans := []; draws := [5000; 700] |} in
  exists (v1 v2 : Z) (e2 : Script),
    0 <= v1 < 1024 /\ 0 <= v2 < 512
    /\ OutgoingHttpCall sample_tid (first_request sc)
       = (Value tt,
          {| sdk := world_after (sdk (first_request sc))
                      (recorded (metrics (sdk (first_request sc))) v1 v2)
                      [HeaderSet "Content-Type" "application/json";
                       SpanStart "outgoing-http-call";
                       LogInfo "Making request to aws.amazon.com";
                       HttpGet "https://aws.amazon.com/";
                       HeaderSet "Content-Type" "application/json";
                       WriteBody
                         (JsonResponse "1-4bf92f35-77b34da6a3ce929d0e0e4736");
                       BodyClose "https://aws.amazon.com/";
                       SpanEnd "outgoing-http-call"] e2;
             logged := logged (first_request sc)
                       ++ request_error_line None |}).
Proof.
  intro sc.
  apply (OutgoingHttpCall_with_response sample_tid
           "1-4bf92f35-77b34da6a3ce929d0e0e4736" (first_request sc)
           tt None sc); reflexivity.
Defined.

Lemma OutgoingHttpCall_without_response_witness :
  let sc := {| answers := [DoReturns None (Some "timeout"%string)];
               scans := []; draws := [] |} in
  OutgoingHttpCall sample_tid (first_request sc)
  = (Panic "invalid memory address or nil pointer dereference"%string,
     {| sdk := world_after (sdk (first_request sc))
                 (metrics (sdk (first_request sc)))
                 [HeaderSet "Content-Type" "application/json";
                  SpanStart "outgoing-http-call";
                  LogInfo "Making request to aws.amazon.com";
                  HttpGet "https://aws.amazon.com/";
                  SpanEnd "outgoing-http-call"]
                 {| answers := []; scans := []; draws := [] |};
        logged := [("Error making request to amazon.com"%string,
                    "timeout"%string)] |}).
Proof.
  intro sc.
  exact (OutgoingHttpCall_without_response (out := scripted_outside)
           sample_tid (first_request sc) (Some "timeout"%string)
           {| answers := []; scans := []; draws := [] |} eq_refl).
Defined.

Lemma AwsSdkCall_needs_client_witness :
  let sc := {| answers := []; scans := []; draws := [17; 300] |} in
  exists (v1 v2 : Z) (e2 : Script),
    0 <= v1 < 1024 /\ 0 <= v2 < 512
    /\ AwsSdkCall sample_tid (Some s3Client_New) (first_request sc)
       = (Value tt,
          {| sdk := world_after (sdk (first_request sc))
                      (recorded (metrics (sdk (first_request sc))) v1 v2)
                      [HeaderSet "Content-Type" "application/json";
                       ListBuckets;
                       SpanStart "aws-sdk-call";
                       HeaderSet "Content-Type" "application/json";
                       WriteBody
                         (JsonResponse "1-4bf92f35-77b34da6a3ce929d0e0e4736");
                       SpanEnd "aws-sdk-call"] e2;
             logged := logged (first_request sc) |}).
Proof.
  intro sc.
  apply (proj2 (AwsSdkCall_needs_client sample_tid (first_request sc))
           s3Client_New "1-4bf92f35-77b34da6a3ce929d0e0e4736"%string).
  reflexivity.
Defined.

Lemma OutgoingPsqlCall_ten_queries_witness :
  let sc := {| answers := [DoReturns None None];
               scans := [None; Some "connection refused"%string];
               draws := [] |} in
  exists made : list Action,
    trace (sdk (snd (OutgoingPsqlCall sample_tid (first_request sc))))
    = trace (sdk (first_request sc)) ++ made
    /\ queries made = repeat "SELECT 1"%string 10
    /\ infos made
       = map (fun j => ("Making SQL request to database " ++ Itoa j)%string)
           (seq 0 10)
    /\ requested made = ["https://aws.amazon.com/"%string].
Proof.
  intro sc.
  apply (OutgoingPsqlCall_ten_queries (Response := unit) sample_tid
           (first_request sc)).
  vm_compute. lia.
Defined.

Lemma OutgoingSampleApp_chain_witness :
  let sc := {| answers := []; scans := []; draws := [] |} in
  let ports := ["8081"; ""; "8082"]%string in
  exists (made : list Action) (k : nat),
    trace (sdk (snd (OutgoingSampleApp sample_tid ports (first_request sc))))
    = trace (sdk (first_request sc)) ++ made
    /\ metrics (sdk (snd (OutgoingSampleApp sample_tid ports
                            (first_request sc))))
       = metrics (sdk (first_request sc))
    /\ requested made = firstn k (map sample_app_addr (invoked_ports ports))
    /\ match fst (OutgoingSampleApp sample_tid ports (first_request sc)) with
       | Value _ =>
           requested made = map sample_app_addr (invoked_ports ports)
           /\ open_spans made = 0
           /\ exists x, getXrayTraceID sample_tid = Value x
                        /\ bodies made = [JsonResponse x]
       | Panic _ =>
           (0 < k <= List.length (invoked_ports ports))%nat
           /\ open_spans made = 1
           /\ bodies made = []
       end.
Proof.
  intros sc ports.
  apply (OutgoingSampleApp_chain (Response := unit) sample_tid ports
           (first_request sc)).
  - discriminate.
  - vm_compute. lia.
Defined.

Lemma OutgoingSampleApp_leaf_witness :
  let sc := {| answers := []; scans := []; draws := [1; 2] |} in
  exists (v1 v2 : Z) (e2 : Script),
    0 <= v1 < 1024 /\ 0 <= v2 < 512
    /\ OutgoingSampleApp sample_tid [] (first_request sc)
       = (Value tt,
          {| sdk := world_after (sdk (first_request sc))
                      (recorded (metrics (sdk (first_request sc))) v1 v2)
                      [SpanStart "invoke-sample-apps";
                       SpanStart "leaf-request";
                       HttpGet "https://aws.amazon.com";
                       SpanEnd "leaf-request";
                       HeaderSet "Content-Type" "application/json";
                       WriteBody
                         (JsonResponse "1-4bf92f35-77b34da6a3ce929d0e0e4736");
                       BodyClose "https://aws.amazon.com";
                       SpanEnd "invoke-sample-apps"] e2;
             logged := logged (first_request sc)
                       ++ request_error_line None |}).
Proof.
  intro sc.
  apply (OutgoingSampleApp_leaf sample_tid
           "1-4bf92f35-77b34da6a3ce929d0e0e4736" (first_request sc)
           tt None sc); reflexivity.
Defined.

Lemma OutgoingSampleApp_stops_without_response_witness :
  let sc := {| answers := [DoReturns None (Some "refused"%string)];
               scans := []; draws := [] |} in
  OutgoingSampleApp sample_tid ["8081"; "8082"]%string (first_request sc)
  = (Panic "invalid memory address or nil pointer dereference"%string,
     {| sdk := world_after (sdk (first_request sc))
                 (metrics (sdk (first_request sc)))
                 [SpanStart "invoke-sample-apps";
                  SpanStart "invoke-sample-app";
                  LogInfo "Making request to sample app on port 8081";
                  HttpGet "http://0.0.0.0:8081/outgoing-sampleapp";
                  SpanEnd "invoke-sample-apps"]
                 {| answers := []; scans := []; draws := [] |};
        logged := [("Error making request to amazon.com"%string,
                    "refused"%string)] |}).
Proof.
  intro sc.
  exact (OutgoingSampleApp_stops_without_response (out := scripted_outside)
           sample_tid "8081" ["8082"%string] (first_request sc)
           (Some "refused"%string)
           {| answers := []; scans := []; draws := [] |}
           ltac:(discriminate) eq_refl).
Defined.

Lemma handlers_serve_witness :
  serves (Instrument := Signal) (Env := Script) sample_tid true
    (AwsSdkCall sample_tid None)
  /\ serves (Instrument := Signal) (Env := Script) sample_tid true
       (OutgoingHttpCall sample_tid)
  /\ serves (Instrument := Signal) (Env := Script) sample_tid true
       (OutgoingPsqlCall sample_tid)
  /\ serves (Instrument := Signal) (Env := Script) sample_tid false
       (OutgoingSampleApp sample_tid ["8081"%string]).
Proof.
  apply (handlers_serve (Response := unit) sample_tid None ["8081"%string]).
  vm_compute. lia.
Defined.

(** ** [main] *)



(** X12.  [main] gets to serve exactly when [StartClient], the metric
    start-up, [LoadDefaultConfig], the opening of the database and its
    ping all succeed.  A failed [NewSession] does not prevent it: the
    error is logged and the handlers are given a nil S3 client. *)
Theorem main_serves_iff
  {M Instrument Err : Type} {meter : Meter M Instrument Err}
  (b : Boot Err) (cfg : Config) (s : StartupState M Err) :
  let r := main (Instrument := Instrument) b cfg s in
  (served r = true
   <-> StartClient_err b = None
       /\ panics (fst (main_metrics (Instrument := Instrument) cfg s)) = false
       /\ LoadDefaultConfig_err b = None
       /\ Open_err b = None
       /\ Ping_err b = None)
  /\ (served r = true ->
      match NewSession_err b with
      | Some e =>
          s3 r = None
          /\ logged (at_end r)
             = logged (snd (main_metrics (Instrument := Instrument) cfg s))
               ++ [("Error creating S3 client"%string, e)]
      | None =>
          s3 r = Some s3Client_New
          /\ at_end r = snd (main_metrics (Instrument := Instrument) cfg s)
      end).
Proof.
  unfold main.
  destruct (StartClient_err b) as [e0|];
    [|destruct (main_metrics cfg s) as [[v|e1] s1];
      [destruct (LoadDefaultConfig_err b) as [e2|];
       [|destruct (NewSession_err b) as [e3|]; cbn [NewS3Client];
         (destruct (Open_err b) as [e4|];
          [|destruct (Ping_err b) as [e5|]])]|]];
    cbn [served s3 at_end fst snd panics logged];
    repeat split; intros;
    repeat match goal with
           | H : _ /\ _ |- _ => destruct H
           end;
    try discriminate; eauto.
Qed.

Lemma main_serves_iff_witness :
  let b := {| StartClient_err := None; LoadDefaultConfig_err := None;
              NewSession_err := Some "no credentials"%string;
              Open_err := None; Ping_err := None;
              ListenAndServe_err := "server closed"%string |} in
  let r := main (Instrument := Signal) b (cfg_threads 10) (boot []) in
  s3 r = None
  /\ logged (at_end r)
     = logged (snd (main_metrics (Instrument := Signal) (cfg_threads 10)
                      (boot [])))
       ++ [("Error creating S3 client"%string, "no credentials"%string)].
Proof.
  intros b r.
  apply (proj2 (main_serves_iff (Instrument := Signal) b (cfg_threads 10)
                  (boot []))).
  reflexivity.
Defined.

(** X13.  When [NewSession] fails and [main] serves all the same, every
    request to [AwsSdkCall] panics on the nil client, with nothing
    recorded and no body written. *)
Theorem AwsSdkCall_after_failed_session
  {M Instrument Env Response Err : Type}
  {meter : Meter M Instrument Err} {out : Outside Env Response Err}
  (b : Boot Err) (cfg : Config) (s : StartupState M Err) (e : Err)
  (tid : TraceID) (w : StartupState (World Instrument Env) Err) :
  let r := main (Instrument := Instrument) b cfg s in
  served r = true ->
  NewSession_err b = Some e ->
  AwsSdkCall tid (s3 r) w
  = (Panic nil_dereference,
     {| sdk := world_after (sdk w) (metrics (sdk w))
                 [HeaderSet "Content-Type" "application/json"]
                 (outside (sdk w));
        logged := logged w |}).
Proof.
  intros r Hserved Hsession.
  assert (Hs3 : s3 r = None).
  { subst r. revert Hserved. unfold main.
    destruct (StartClient_err b); [discriminate|].
    destruct (main_metrics cfg s) as [[v|e1] s1]; [|discriminate].
    destruct (LoadDefaultConfig_err b); [discriminate|].
    rewrite Hsession. cbn [NewS3Client].
    destruct (Open_err b); [discriminate|].
    destruct (Ping_err b); [discriminate|]. reflexivity. }
  rewrite Hs3.
  destruct w as [[u t d e0] lg]. unfold AwsSdkCall, func, bind, act, call,
    panic. cbn [sdk logged metrics trace deferred outside].
  unfold world_after. cbn [sdk logged metrics trace deferred outside].
  now rewrite app_nil_r.
Qed.

Lemma AwsSdkCall_after_failed_session_witness :
  let b := {| StartClient_err := None; LoadDefaultConfig_err := None;
              NewSession_err := Some "no credentials"%string;
              Open_err := None; Ping_err := None;
              ListenAndServe_err := "server closed"%string |} in
  let r := main (Instrument := Signal) b (cfg_threads 10) (boot []) in
  let w := first_request {| answers := []; scans := []; draws := [] |} in
  AwsSdkCall sample_tid (s3 r) w
  = (Panic "invalid memory address or nil pointer dereference"%string,
     {| sdk := world_after (sdk w) (metrics (sdk w))
                 [HeaderSet "Content-Type" "application/json"]
                 (outside (sdk w));
        logged := logged w |}).
Proof.
  intros b r w.
  exact (AwsSdkCall_after_failed_session (Instrument := Signal)
           (out := scripted_outside) b (cfg_threads 10) (boot [])
           "no credentials"%string sample_tid w eq_refl eq_refl).
Defined.

(** ** The logging middleware *)

Lemma on_wrapped_calls (calls : list WriterCall) :
  forall rw : responseWriter,
    fold_left (fun rw c => on_wrapped c rw) calls rw
    = {| ResponseWriter := ResponseWriter rw ++ calls;
         status := last_code calls (status rw) |}.
Proof.
  induction calls as [|c calls IH]; intros rw; cbn [fold_left last_code].
  - rewrite app_nil_r. now destruct rw.
  - rewrite IH. destruct c; cbn [on_wrapped WriteHeader ResponseWriter status];
      rewrite <- app_assoc; reflexivity.
Qed.

(** X14.  The wrapped writer of [LoggerMiddleware] passes every call of the
    handler on to the writer, unchanged and in order.  The status logged
    for a request is the code of the last [WriteHeader] of the handler,
    and 200 if it made none; nothing is logged for a handler that
    panics. *)
Theorem LoggerMiddleware_status
  (calls : list WriterCall) (returns : bool) (w : list WriterCall) :
  fst (LoggerMiddleware calls returns w) = w ++ calls
  /\ snd (LoggerMiddleware calls returns w)
     = if returns then Some (last_code calls 200) else None.
Proof.
  unfold LoggerMiddleware. cbv zeta. rewrite on_wrapped_calls.
  split; reflexivity.
Qed.

(** ** More on the oscillator and the background loop *)

(** X15.  For every bound from 0 on, what the threads-active instrument
    has accumulated after any number of ticks lies between 0 and the
    bound, and follows the count: it equals the count while the
    oscillator ascends and is one above it while it descends. *)
Theorem threadsActive_total_follows_count (cfg : Config) (T : nat) :
  0 <= ThreadsActiveUpperBound cfg <= Int64.max_int64 ->
  let g := fst (ticks cfg T initial_state) in
  let total := added ThreadsActive (snd (ticks cfg T initial_state)) in
  0 <= total <= ThreadsActiveUpperBound cfg
  /\ total = threadCount g + (if threadsBool g then 0 else 1).
Proof.
  intros Hub g total.
  assert (H0 : tracks cfg initial_state 0).
  { unfold tracks, initial_state; cbn. lia. }
  pose proof (ticks_tracks cfg T Hub initial_state 0 H0) as H.
  unfold tracks in H. fold g in H. cbn [Z.add] in H. fold total in H.
  destruct (threadsBool g); lia.
Qed.

Lemma threadsActive_total_follows_count_witness :
  let g := fst (ticks (cfg_threads 0) 7 initial_state) in
  let total := added ThreadsActive (snd (ticks (cfg_threads 0) 7 initial_state)) in
  0 <= total <= 0
  /\ total = threadCount g + (if threadsBool g then 0 else 1).
Proof.
  apply (threadsActive_total_follows_count (cfg_threads 0) 7).
  vm_compute. split; discriminate.
Defined.

(** X16.  After [n] turns of the background loop the time-alive counter
    has received [n] times the 64-bit product of the increment and 1000,
    and the oscillator and its instrument are where [n] ticks take
    them. *)
Theorem background_loop_turns (cfg : Config) (n : nat) (g : GeneratorState) :
  fst (tick_loop cfg n g) = fst (ticks cfg n g)
  /\ added ThreadsActive (snd (tick_loop cfg n g))
     = added ThreadsActive (snd (ticks cfg n g))
  /\ added TimeAlive (snd (tick_loop cfg n g))
     = Z.of_nat n * Int64.mul (TimeAliveIncrementer cfg) 1000.
Proof.
  revert g. induction n as [|n IH]; intros g; cbn [tick_loop ticks].
  - cbn. auto.
  - assert (Hsilent : added TimeAlive (snd (updateThreadsActive cfg g)) = 0).
    { unfold updateThreadsActive.
      destruct (threadsBool g);
        [destruct (threadCount g <? int64 (ThreadsActiveUpperBound cfg))
        |destruct (threadCount g >? 0)]; reflexivity. }
    destruct (updateThreadsActive cfg g) as [g1 e1]. cbn [snd] in Hsilent.
    destruct (IH g1) as (Hs & Ha & Ht).
    destruct (tick_loop cfg n g1) as [g2 e2].
    destruct (ticks cfg n g1) as [g2' e2']. cbn [fst snd] in *.
    rewrite !added_app, Ha, Ht, Hsilent. unfold updateTimeAlive.
    cbn [added Signal_eqb]. rewrite Nat2Z.inj_succ.
    split; [exact Hs|split; lia].
Qed.

Lemma ticks_app (cfg : Config) (n m : nat) :
  forall g,
    ticks cfg (n + m) g
    = (fst (ticks cfg m (fst (ticks cfg n g))),
       snd (ticks cfg n g) ++ snd (ticks cfg m (fst (ticks cfg n g)))).
Proof.
  induction n as [|n IH]; intros g; cbn [Nat.add ticks].
  - cbn [fst snd app]. now destruct (ticks cfg m g).
  - destruct (updateThreadsActive cfg g) as [g1 e1]. rewrite IH.
    destruct (ticks cfg n g1) as [g2 e2]. cbn [fst snd].
    now rewrite app_assoc.
Qed.

Lemma ticks_ascend (cfg : Config) (k : nat) :
  forall c : Z,
    0 <= c ->
    c + Z.of_nat k <= ThreadsActiveUpperBound cfg <= Int64.max_int64 ->
    ticks cfg k {| threadCount := c; threadsBool := true |}
    = ({| threadCount := c + Z.of_nat k; threadsBool := true |},
       repeat (EvAdd ThreadsActive 1) k).
Proof.
  induction k as [|k IH]; intros c Hc Hub; cbn [ticks repeat].
  - now rewrite Z.add_0_r.
  - unfold updateThreadsActive. cbn [threadsBool threadCount].
    int64_simpl.
    destruct (Z.ltb_spec c (ThreadsActiveUpperBound cfg)); [|lia].
    int64_simpl. rewrite IH by lia. cbn [app].
    replace (c + 1 + Z.of_nat k) with (c + Z.of_nat (S k)) by lia.
    reflexivity.
Qed.

Lemma ticks_descend (cfg : Config) (k : nat) :
  forall c : Z,
    Z.of_nat k <= c <= Int64.max_int64 ->
    ticks cfg k {| threadCount := c; threadsBool := false |}
    = ({| threadCount := c - Z.of_nat k; threadsBool := false |},
       repeat (EvAdd ThreadsActive (-1)) k).
Proof.
  induction k as [|k IH]; intros c Hc; cbn [ticks repeat].
  - now rewrite Z.sub_0_r.
  - unfold updateThreadsActive. cbn [threadsBool threadCount].
    destruct (Z.gtb_spec c 0); [|lia].
    int64_simpl. rewrite IH by lia. cbn [app].
    replace (c - 1 - Z.of_nat k) with (c - Z.of_nat (S k)) by lia.
    reflexivity.
Qed.

(** X17.  With a bound [n + 1] the oscillator climbs from the initial
    state to the top in [n + 1] ticks, each adding 1, and from the top it
    is back at the top after [2 * (n + 1)] ticks: one silent flip, [n]
    ticks down to 0 adding -1, one silent flip, [n] ticks up adding 1.
    So the instrument moves between 1 and the bound from then on. *)
Theorem oscillator_period (cfg : Config) (n : nat) :
  ThreadsActiveUpperBound cfg = Z.of_nat (S n) ->
  Z.of_nat (S n) <= Int64.max_int64 ->
  let top := {| threadCount := Z.of_nat (S n); threadsBool := true |} in
  ticks cfg (S n) initial_state = (top, repeat (EvAdd ThreadsActive 1) (S n))
  /\ ticks cfg (2 * S n) top
     = (top, repeat (EvAdd ThreadsActive (-1)) n
             ++ repeat (EvAdd ThreadsActive 1) n).
Proof.
  intros Hub Hmax top. split.
  - unfold initial_state. rewrite ticks_ascend by lia. reflexivity.
  - replace (2 * S n)%nat with (1 + (n + (1 + n)))%nat by lia.
    assert (Hdown : ticks cfg 1 top
                    = ({| threadCount := Z.of_nat n; threadsBool := false |},
                       [])).
    { cbn [ticks]. unfold top, updateThreadsActive.
      cbn [threadsBool threadCount]. rewrite Hub. int64_simpl.
      destruct (Z.ltb_spec (Z.of_nat (S n)) (Z.of_nat (S n))); [lia|].
      int64_simpl.
      replace (Z.of_nat (S n) - 1) with (Z.of_nat n) by lia.
      reflexivity. }
    assert (Hup : ticks cfg 1 {| threadCount := 0; threadsBool := false |}
                  = ({| threadCount := 1; threadsBool := true |}, [])).
    { cbn [ticks]. unfold updateThreadsActive.
      cbn [threadsBool threadCount]. reflexivity. }
    rewrite (ticks_app cfg 1), Hdown. cbn [fst snd app].
    rewrite (ticks_app cfg n), ticks_descend by lia. cbn [fst snd].
    rewrite Z.sub_diag.
    rewrite (ticks_app cfg 1), Hup. cbn [fst snd app].
    rewrite ticks_ascend by lia. cbn [fst snd].
    unfold top. replace (1 + Z.of_nat n) with (Z.of_nat (S n)) by lia.
    reflexivity.
Qed.

Lemma oscillator_period_witness :
  let top := {| threadCount := Z.of_nat 10; threadsBool := true |} in
  ticks (cfg_threads 10) 10 initial_state
  = (top, repeat (EvAdd ThreadsActive 1) 10)
  /\ ticks (cfg_threads 10) (2 * 10) top
     = (top, repeat (EvAdd ThreadsActive (-1)) 9
             ++ repeat (EvAdd ThreadsActive 1) 9).
Proof.
  apply (oscillator_period (cfg_threads 10) 9).
  - reflexivity.
  - vm_compute. discriminate.
Defined.

(** ** More on the request collector and the metric start-up *)


(** X19.  A collection after [n] requests observes [n]: on a collector
    whose counter was 0, after [n] calls of [AddApiRequest], for [n] up
    to 2^63 - 1, the callback registered by [StartTotalRequestCallback]
    returns and observes exactly [n]. *)
Theorem totalApiRequests_observed {Instrument : Type}
  (rqmc : requestBasedMetricCollector Instrument) (n : N) (d : Z) :
  counter rqmc = 0 ->
  Z.of_N n <= Int64.max_int64 ->
  totalApiRequestsCallback
    {| draw := d; requests := counter (N.iter n AddApiRequest rqmc) |}
  = Value [EvObserve TotalApiRequests (Z.of_N n)].
Proof.
  intros H0 Hn. unfold totalApiRequestsCallback. cbn [requests].
  rewrite counter_iter_AddApiRequest
    by (rewrite H0; vm_compute; split; discriminate).
  rewrite H0. int64_bounds. int64_simpl. reflexivity.
Qed.

Lemma totalApiRequests_observed_witness :
  totalApiRequestsCallback
    {| draw := 0; requests := counter (N.iter 100 AddApiRequest fresh_rqmc) |}
  = Value [EvObserve TotalApiRequests 100].
Proof.
  apply (totalApiRequests_observed fresh_rqmc 100%N 0).
  - reflexivity.
  - vm_compute. discriminate.
Defined.


